(** * Probe and fetch core of the bookmark analyser

    A shallow embedding of [url-checker.py] (probe phase) and
    [content-downloader.py] (fetch phase), with the properties the
    specification states about them.

    Conventions of the embedding:
    - a Python [str] is a Rocq [string] (one [ascii] per character);
    - a Python dict with a fixed set of keys is a record; a key that is
      absent or holds [None] is an [option] field at [None];
    - the network, the TLS layer, the clock and the file system are an
      explicit [World] of oracles; every request a function issues is also
      appended to a log of [Request]s, so that the number of network calls
      is observable;
    - an exception is a value of type [Exn]; a [try] block is a computation
      that returns [inl e] when it raises [e];
    - the completion order of the tasks of a phase is a parameter
      [as_completed], constrained only to permute its argument. *)

From Stdlib Require Import ZArith QArith List String Ascii Bool Lia.
From Stdlib Require Import Permutation Sorted DecimalString.
Import ListNotations.

Local Open Scope string_scope.
Local Open Scope Z_scope.

(** ** Python string primitives used by the two modules *)

Module Py.

(** [s.startswith(p)] *)
Definition startswith (s p : string) : bool := String.prefix p s.

(** [s.endswith(p)] *)
Fixpoint endswith (s p : string) : bool :=
  String.eqb s p ||
  match s with
  | EmptyString => false
  | String _ s' => endswith s' p
  end.

(** [p in s] for strings *)
Fixpoint contains (s p : string) : bool :=
  String.prefix p s ||
  match s with
  | EmptyString => false
  | String _ s' => contains s' p
  end.

(** [s.split(sep)] for a one-character separator *)
Fixpoint split (sep : ascii) (s : string) : list string :=
  match s with
  | EmptyString => [EmptyString]
  | String c s' =>
      if Ascii.eqb c sep then EmptyString :: split sep s'
      else match split sep s' with
           | [] => [String c EmptyString]
           | w :: ws => String c w :: ws
           end
  end.

(** [sep.join(l)] *)
Definition join (sep : string) (l : list string) : string := String.concat sep l.

(** [s.replace(a, b)] for one-character [a] and [b] *)
Fixpoint replace (a b : ascii) (s : string) : string :=
  match s with
  | EmptyString => EmptyString
  | String c s' => String (if Ascii.eqb c a then b else c) (replace a b s')
  end.

(** [s.lstrip(c)], [s.rstrip(c)] and [s.strip(c)] for one character *)
Fixpoint lstrip (c : ascii) (s : string) : string :=
  match s with
  | EmptyString => EmptyString
  | String d s' => if Ascii.eqb d c then lstrip c s' else s
  end.

Fixpoint rstrip (c : ascii) (s : string) : string :=
  match s with
  | EmptyString => EmptyString
  | String d s' =>
      match rstrip c s' with
      | EmptyString => if Ascii.eqb d c then EmptyString else String d EmptyString
      | r => String d r
      end
  end.

Definition strip (c : ascii) (s : string) : string := rstrip c (lstrip c s).

(** [s[:n]] *)
Fixpoint take (n : nat) (s : string) : string :=
  match n, s with
  | O, _ => EmptyString
  | _, EmptyString => EmptyString
  | S n', String c s' => String c (take n' s')
  end.

(** [s[n:]] *)
Fixpoint drop (n : nat) (s : string) : string :=
  match n, s with
  | O, _ => s
  | _, EmptyString => EmptyString
  | S n', String _ s' => drop n' s'
  end.

(** [s.lower()] on ASCII letters *)
Definition lower_char (c : ascii) : ascii :=
  let n := nat_of_ascii c in
  if (Nat.leb 65 n && Nat.leb n 90)%bool then ascii_of_nat (n + 32) else c.

Fixpoint lower (s : string) : string :=
  match s with
  | EmptyString => EmptyString
  | String c s' => String (lower_char c) (lower s')
  end.

(** [c.isalpha()] and [c.isalnum()] on ASCII *)
Definition isalpha (c : ascii) : bool :=
  let n := nat_of_ascii c in
  ((Nat.leb 65 n && Nat.leb n 90) || (Nat.leb 97 n && Nat.leb n 122))%bool.

Definition isdigit (c : ascii) : bool :=
  let n := nat_of_ascii c in (Nat.leb 48 n && Nat.leb n 57)%bool.

Definition isalnum (c : ascii) : bool := (isalpha c || isdigit c)%bool.

(** truthiness of an optional string: [None] and [''] are falsy *)
Definition truthy (o : option string) : bool :=
  match o with
  | None => false
  | Some s => negb (String.eqb s EmptyString)
  end.

(** [str(n)] for an integer *)
Definition str_int (n : Z) : string := NilZero.string_of_int (Z.to_int n).

(** the characters of a string *)
Definition chars (s : string) : list ascii := list_ascii_of_string s.

End Py.

(** ** [urllib.parse.urlparse]

    The standard-library parser is not part of the repository; this is a
    model of the three components the code reads ([scheme], [netloc],
    [path]).  It follows the library's algorithm ([urlsplit], then
    [_splitparams]): leading characters up to the space (codes 0 to 32) are
    stripped and every tab, carriage return and line feed is removed; a
    leading scheme made of scheme characters and ended by [':'] is split
    off and lower-cased; after ["//"] the network location runs up to the
    first of ['/'], ['?'], ['#']; fragment and query are cut off; for the
    schemes that take parameters, [';params'] is cut off the last path
    segment.  One thing is left out: the library raises [ValueError] on a
    network location with unbalanced or ill-formed brackets (and on some
    non-ASCII ones), where the model returns the components it has split. *)

Module urllib.

Record ParseResult := mkParse { scheme : string; netloc : string; path : string }.

Definition scheme_char (c : ascii) : bool :=
  (Py.isalnum c || Ascii.eqb c "+" || Ascii.eqb c "-" || Ascii.eqb c ".")%bool.

(** [before stop s] is [s] up to the first character satisfying [stop],
    [after stop s] is [s] from that character on. *)
Fixpoint before (stop : ascii -> bool) (s : string) : string :=
  match s with
  | EmptyString => EmptyString
  | String c s' => if stop c then EmptyString else String c (before stop s')
  end.

Fixpoint after (stop : ascii -> bool) (s : string) : string :=
  match s with
  | EmptyString => EmptyString
  | String c s' => if stop c then s else after stop s'
  end.

Definition is_char (a : ascii) (c : ascii) : bool := Ascii.eqb c a.

(** [url.lstrip(_WHATWG_C0_CONTROL_OR_SPACE)] *)
Fixpoint lstrip_c0 (url : string) : string :=
  match url with
  | EmptyString => EmptyString
  | String c url' => if Nat.leb (nat_of_ascii c) 32 then lstrip_c0 url' else url
  end.

(** [for b in _UNSAFE_URL_BYTES_TO_REMOVE: url = url.replace(b, "")] *)
Fixpoint remove_unsafe (url : string) : string :=
  match url with
  | EmptyString => EmptyString
  | String c url' =>
      if (Nat.eqb (nat_of_ascii c) 9 || Nat.eqb (nat_of_ascii c) 13
          || Nat.eqb (nat_of_ascii c) 10)%bool
      then remove_unsafe url'
      else String c (remove_unsafe url')
  end.

Definition split_scheme (url : string) : string * string :=
  let head := before (is_char ":") url in
  let rest := after (is_char ":") url in
  match url, rest with
  | String c0 _, String _ rest' =>
      if (Py.isalpha c0 && forallb scheme_char (Py.chars head))%bool
      then (Py.lower head, rest')
      else (EmptyString, url)
  | _, _ => (EmptyString, url)
  end.

Definition netloc_stop (c : ascii) : bool :=
  (Ascii.eqb c "/" || Ascii.eqb c "?" || Ascii.eqb c "#")%bool.

Definition split_netloc (url : string) : string * string :=
  if Py.startswith url "//"
  then let r := Py.drop 2 url in (before netloc_stop r, after netloc_stop r)
  else (EmptyString, url).

Definition uses_params : list string :=
  [""; "ftp"; "hdl"; "prospero"; "http"; "imap"; "https"; "shttp"; "rtsp";
   "rtspu"; "sip"; "sips"; "mms"; "sftp"; "tel"].

Definition splitparams (p : string) : string :=
  let segs := Py.split "/" p in
  Py.join "/" (removelast segs ++ [before (is_char ";") (last segs EmptyString)])%list.

Definition urlparse (url : string) : ParseResult :=
  let url := remove_unsafe (lstrip_c0 url) in
  let '(sch, rest) := split_scheme url in
  let '(loc, rest) := split_netloc rest in
  let rest := before (is_char "#") rest in
  let rest := before (is_char "?") rest in
  let p := if existsb (String.eqb sch) uses_params then splitparams rest else rest in
  mkParse sch loc p.

End urllib.

(** ** Data model: the bookmark record and its [status] and [content] dicts *)

Module Status.
Record t := mk {
  code : option Z;
  accessible : option bool;
  redirect : option bool;
  redirect_url : option string;
  response_time : option Q;
  ssl_valid : option bool;
  last_checked : option string
}.
(** the [status] dict as the extractor creates it: every key at [None] *)
Definition initial : t := mk None None None None None None None.
End Status.

Module Content.
Record t := mk {
  downloaded : bool;
  path : option string;
  size : option Z;
  mime_type : option string;
  download_date : option string;
  error : option string;
  url_used : option string
}.
(** the [content] dict as the extractor creates it *)
Definition initial : t := mk false None None None None None None.
End Content.

Module Bookmark.
Record t := mk {
  id : Z;
  url : string;
  domain : string;
  status : Status.t;
  content : Content.t
}.
Definition set_status (b : t) (s : Status.t) : t :=
  mk (id b) (url b) (domain b) s (content b).
Definition set_content (b : t) (c : Content.t) : t :=
  mk (id b) (url b) (domain b) (status b) c.
End Bookmark.

(** [d.get(key, False)] on an optional boolean, read as a condition *)
Definition get_flag (o : option bool) : bool :=
  match o with Some true => true | _ => false end.

Module Config.
Record t := mk {
  timeout : option Q;
  delay : option Q;
  user_agent : option string;
  output_dir : option string
}.
End Config.

(** ** The outside world *)

Module Response.
Record t := mk {
  status : Z;
  headers : list (string * string);
  body : string
}.
(** [response.headers.get(name, None)]; header names compare without case *)
Fixpoint lookup (name : string) (hs : list (string * string)) : option string :=
  match hs with
  | [] => None
  | (k, v) :: hs' =>
      if String.eqb (Py.lower k) (Py.lower name) then Some v else lookup name hs'
  end.
Definition header (r : t) (name : string) : option string := lookup name (headers r).
End Response.

(** The exceptions a request can raise, by the classes the handlers tell
    apart.  All of them derive from [Exception]; the classes are taken
    disjoint: [TimeoutError] is an [asyncio.TimeoutError] that is not also
    an [aiohttp.ClientError], which the first handler would take. *)
Inductive Exn : Type :=
| ClientConnectorError (msg : string)          (* aiohttp.ClientConnectorError *)
| ClientResponseError (status : Z) (msg : string) (* aiohttp.ClientResponseError *)
| ClientError (msg : string)                   (* any other aiohttp.ClientError *)
| TimeoutError                                 (* asyncio.TimeoutError *)
| OtherException (msg : string).               (* any other Exception *)

(** [str(e)] *)
Definition str_exn (e : Exn) : string :=
  match e with
  | ClientConnectorError m | ClientResponseError _ m | ClientError m
  | OtherException m => m
  | TimeoutError => EmptyString
  end.

Inductive Outcome : Type :=
| Returned (response : Response.t)
| Raised (e : Exn).

(** What a task asks of the network. *)
Inductive Request : Type :=
| HEAD (url : string)                          (* session.head, no redirects followed *)
| GET (url : string)                           (* session.get, redirects followed *)
| TLS (host : string) (port : Z).              (* ssl handshake with (host, port) *)

Record World := mkWorld {
  (** [session.head(url, allow_redirects=False, timeout=...)] *)
  session_head : string -> Outcome;
  (** [session.get(url, timeout=..., allow_redirects=True)] *)
  session_get : string -> Outcome;
  (** the handshake with [(host, port)] under the certifi CA bundle completes *)
  tls_connect : string -> Z -> bool;
  (** [time.time()] before and after the probe of a URL *)
  time_start : string -> Q;
  time_end : string -> Q;
  (** [datetime.now().isoformat()] and [datetime.now().strftime("%Y%m%d")] *)
  now_isoformat : string;
  now_yyyymmdd : string;
  (** [hashlib.md5(s.encode()).hexdigest()] *)
  md5_hexdigest : string -> string;
  (** the exception, if any, raised while creating the directory, reading
      the body or writing the file *)
  storage_failure : string -> option Exn
}.

(** ** Probe engine: [check_url] *)

Definition in_range (lo hi : Z) (x : Z) : bool := ((lo <=? x) && (x <? hi))%bool.

(** [redirect_url.startswith(('http://', 'https://'))] *)
Definition is_absolute (target : string) : bool :=
  (Py.startswith target "http://" || Py.startswith target "https://")%bool.

(** Lines 53-66: a relative [Location] is made absolute against the
    request URL. *)
Definition absolute_redirect (url : string) (redirect_url : option string) : option string :=
  match redirect_url with
  | Some target =>
      if (Py.truthy redirect_url && negb (is_absolute target))%bool then
        let parsed_url := urllib.urlparse url in
        let base_url := urllib.scheme parsed_url ++ "://" ++ urllib.netloc parsed_url in
        if Py.startswith target "/" then Some (base_url ++ target)
        else
          let path := urllib.path parsed_url in
          if Py.endswith path "/" then Some (base_url ++ path ++ target)
          else
            let path := Py.join "/" (removelast (Py.split "/" path)) ++ "/" in
            Some (base_url ++ path ++ target)
      else redirect_url
  | None => None
  end.

(** the local variables [status_code], [redirect_url], [ssl_valid] *)
Definition Locals : Type := (option Z * option string * option bool)%type.

(** Lines 44-98: the body of the [try].  It returns [inl e] when the HEAD
    request raises [e]; a raising follow-up GET and a raising handshake are
    caught inside the block. *)
Definition probe_attempt (w : World) (url : string) : (Exn + Locals) * list Request :=
  match session_head w url with
  | Raised e => (inl e, [HEAD url])
  | Returned response =>
      let status_code := Response.status response in
      let redirect_url :=
        if in_range 300 400 status_code
        then absolute_redirect url (Response.header response "Location")
        else None in
      let '(status_code, redirect_url, calls) :=
        if 400 <=? status_code then
          match session_get w url with
          | Returned get_response =>
              let status_code := Response.status get_response in
              (status_code,
               if in_range 300 400 status_code
               then Response.header get_response "Location"
               else redirect_url,
               [HEAD url; GET url])
          | Raised _ => (status_code, redirect_url, [HEAD url; GET url])
          end
        else (status_code, redirect_url, [HEAD url]) in
      let '(ssl_valid, calls) :=
        if Py.startswith url "https://" then
          let parsed_url := urllib.urlparse url in
          (Some (tls_connect w (urllib.netloc parsed_url) 443),
           (calls ++ [TLS (urllib.netloc parsed_url) 443])%list)
        else (None, calls) in
      (inr (Some status_code, redirect_url, ssl_valid), calls)
  end.

(** Lines 100-113: the [except] clauses, in order: [aiohttp.ClientError]
    (with its two [isinstance] tests), [asyncio.TimeoutError], [Exception]. *)
Definition error_code (e : Exn) : Z :=
  match e with
  | ClientConnectorError _ => 0
  | ClientResponseError status _ => status
  | ClientError _ => -1
  | TimeoutError => 408
  | OtherException _ => -2
  end.

(** [status_code or 0] *)
Definition or_0 (status_code : option Z) : Z :=
  match status_code with Some c => c | None => 0 end.

Definition check_url (w : World) (bookmark : Bookmark.t) : Bookmark.t * list Request :=
  let url := Bookmark.url bookmark in
  let start_time := time_start w url in
  let '(attempt, calls) := probe_attempt w url in
  let '(status_code, redirect_url, ssl_valid) :=
    match attempt with
    | inr locals => locals
    | inl e => (Some (error_code e), None, None)
    end in
  let response_time := (time_end w url - start_time)%Q in
  (Bookmark.set_status bookmark
     (Status.mk status_code
        (Some (in_range 200 400 (or_0 status_code)))
        (Some (in_range 300 400 (or_0 status_code)))
        redirect_url
        (Some response_time)
        ssl_valid
        (Some (now_isoformat w))),
   calls).

(** [asyncio.as_completed]: the order in which the tasks of a phase
    complete, as a rearrangement of the list of their results. *)
Definition CompletionOrder : Type := list Bookmark.t -> list Bookmark.t.

(** [enumerate(l)] *)
Definition enumerate {A : Type} (l : list A) : list (nat * A) :=
  combine (seq 0 (List.length l)) l.

(** [l.sort(key=lambda b: b['id'])]: a stable sort by ascending [id]. *)
Fixpoint insert_by_id (b : Bookmark.t) (l : list Bookmark.t) : list Bookmark.t :=
  match l with
  | [] => [b]
  | x :: l' =>
      if Bookmark.id b <=? Bookmark.id x then b :: l
      else x :: insert_by_id b l'
  end.

Fixpoint sort_by_id (l : list Bookmark.t) : list Bookmark.t :=
  match l with
  | [] => []
  | b :: l' => insert_by_id b (sort_by_id l')
  end.

(** The [domains] dict of both phases, in insertion order:
    [if domain not in domains: domains[domain] = []] followed by
    [domains[domain].append(bookmark)]. *)
Fixpoint domains_append (domains : list (string * list Bookmark.t))
    (bookmark : Bookmark.t) : list (string * list Bookmark.t) :=
  match domains with
  | [] => [(Bookmark.domain bookmark, [bookmark])]
  | (domain, domain_bookmarks) :: rest =>
      if String.eqb domain (Bookmark.domain bookmark)
      then (domain, (domain_bookmarks ++ [bookmark])%list) :: rest
      else (domain, domain_bookmarks) :: domains_append rest bookmark
  end.

Definition nat_to_Q (i : nat) : Q := inject_Z (Z.of_nat i).

Module url_checker.

(** Lines 153-158 *)
Definition group_domains (bookmarks : list Bookmark.t) : list (string * list Bookmark.t) :=
  fold_left domains_append bookmarks [].

(** [config.get('delay', 1)] *)
Definition delay (config : Config.t) : Q :=
  match Config.delay config with Some d => d | None => 1%Q end.

(** Lines 160-170: one task per bookmark, with its [domain_delay]. *)
Definition tasks (config : Config.t) (bookmarks : list Bookmark.t) : list (Bookmark.t * Q) :=
  flat_map
    (fun '(_, domain_bookmarks) =>
       map (fun '(i, bookmark) => (bookmark, (nat_to_Q i * delay config / 2)%Q))
           (enumerate domain_bookmarks))
    (group_domains bookmarks).

(** [check_urls_async]: the sorted results, and the requests issued, each
    with the bookmark it was issued for. *)
Definition check_urls_async (w : World) (as_completed : CompletionOrder)
    (bookmarks : list Bookmark.t) (config : Config.t)
  : list Bookmark.t * list (Bookmark.t * Request) :=
  let ts := tasks config bookmarks in
  let runs := map (fun '(bookmark, _) => (bookmark, check_url w bookmark)) ts in
  let updated_bookmarks := as_completed (map (fun r => fst (snd r)) runs) in
  (sort_by_id updated_bookmarks,
   flat_map (fun r => map (pair (fst r)) (snd (snd r))) runs).

End url_checker.

(** ** Fetch engine *)

Module content_downloader.

(** [os.path.join(a, b)] on a POSIX system *)
Definition os_path_join (a b : string) : string :=
  if Py.startswith b "/" then b
  else if (String.eqb a "" || Py.endswith a "/")%bool then a ++ b
  else a ++ "/" ++ b.

(** Lines 41-45: the address the fetch is made to. *)
Definition target_url (bookmark : Bookmark.t) : string :=
  let status := Bookmark.status bookmark in
  match Status.redirect_url status with
  | Some redirect_url =>
      if (get_flag (Status.redirect status) && Py.truthy (Some redirect_url))%bool
      then redirect_url else Bookmark.url bookmark
  | None => Bookmark.url bookmark
  end.

(** Lines 66-76: the [path] part of the file name. *)
Definition file_stem (url : string) : string :=
  let parsed_url := urllib.urlparse url in
  let path := Py.strip "/" (urllib.path parsed_url) in
  if String.eqb path "" then "index"
  else
    let path := Py.replace "/" "_" path in
    if Nat.ltb 100 (String.length path) then Py.take 100 path else path.

(** Lines 86-93 *)
Definition file_extension (content_type : string) : string :=
  if Py.contains content_type "json" then ".json"
  else if Py.contains content_type "xml" then ".xml"
  else if Py.contains content_type "text/plain" then ".txt"
  else ".html".

(** Lines 78-80 and 96: [f"{path}_{url_hash}_{timestamp}{extension}"] *)
Definition filename (w : World) (url content_type : string) : string :=
  let url_hash := Py.take 10 (md5_hexdigest w url) in
  let timestamp := now_yyyymmdd w in
  file_stem url ++ "_" ++ url_hash ++ "_" ++ timestamp ++ file_extension content_type.

(** [response.headers.get('Content-Type', 'text/html')] *)
Definition content_type_of (response : Response.t) : string :=
  match Response.header response "Content-Type" with
  | Some t => t
  | None => "text/html"
  end.

Definition failure (w : World) (url error : string) : Content.t :=
  Content.mk false None None None (Some (now_isoformat w)) (Some error) (Some url).

(** Lines 49-116: the body of the [try]; [inl e] when it raises [e]. *)
Definition fetch_attempt (w : World) (config : Config.t) (url : string) : Exn + Content.t :=
  match session_get w url with
  | Raised e => inl e
  | Returned response =>
      if negb (Response.status response =? 200)
      then inr (failure w url ("status_code: " ++ Py.str_int (Response.status response)))
      else
        let content_type := content_type_of response in
        let parsed_url := urllib.urlparse url in
        let domain := Py.replace ":" "_" (urllib.netloc parsed_url) in
        match Config.output_dir config with
        | None => inl (OtherException "'output_dir'")
        | Some output_dir =>
            let content_dir :=
              os_path_join (os_path_join output_dir "data/content") domain in
            let file_path := os_path_join content_dir (filename w url content_type) in
            match storage_failure w file_path with
            | Some e => inl e
            | None =>
                let content := Response.body response in
                inr (Content.mk true (Some file_path)
                       (Some (Z.of_nat (String.length content)))
                       (Some content_type) (Some (now_isoformat w)) None (Some url))
            end
        end
  end.

(** Lines 118-141: the [except] clauses *)
Definition error_string (e : Exn) : string :=
  match e with
  | ClientConnectorError _ | ClientResponseError _ _ | ClientError _ =>
      "client_error: " ++ str_exn e
  | TimeoutError => "timeout"
  | OtherException _ => "unexpected_error: " ++ str_exn e
  end.

Definition download_page_content (w : World) (bookmark : Bookmark.t) (config : Config.t)
  : Bookmark.t * list Request :=
  if negb (get_flag (Status.accessible (Bookmark.status bookmark)))
  then (bookmark, [])
  else
    let url := target_url bookmark in
    match fetch_attempt w config url with
    | inr content => (Bookmark.set_content bookmark content, [GET url])
    | inl e => (Bookmark.set_content bookmark (failure w url (error_string e)), [GET url])
    end.

(** Lines 186-195: only accessible bookmarks are grouped. *)
Definition group_domains (bookmarks : list Bookmark.t) : list (string * list Bookmark.t) :=
  fold_left
    (fun domains bookmark =>
       if negb (get_flag (Status.accessible (Bookmark.status bookmark)))
       then domains
       else domains_append domains bookmark)
    bookmarks [].

(** [config.get('delay', 2)] *)
Definition delay (config : Config.t) : Q :=
  match Config.delay config with Some d => d | None => 2%Q end.

(** Lines 197-207 *)
Definition tasks (config : Config.t) (bookmarks : list Bookmark.t) : list (Bookmark.t * Q) :=
  flat_map
    (fun '(_, domain_bookmarks) =>
       map (fun '(i, bookmark) => (bookmark, (nat_to_Q i * delay config)%Q))
           (enumerate domain_bookmarks))
    (group_domains bookmarks).

(** Lines 215-224: the bookmarks that get no task *)
Definition inaccessible_content (w : World) : Content.t :=
  Content.mk false None None None (Some (now_isoformat w)) (Some "inaccessible_url") None.

Definition non_downloaded (w : World) (bookmarks : list Bookmark.t) : list Bookmark.t :=
  map (fun bookmark => Bookmark.set_content bookmark (inaccessible_content w))
      (filter (fun bookmark => negb (get_flag (Status.accessible (Bookmark.status bookmark))))
              bookmarks).

Definition download_content_async (w : World) (as_completed : CompletionOrder)
    (bookmarks : list Bookmark.t) (config : Config.t)
  : list Bookmark.t * list (Bookmark.t * Request) :=
  let ts := tasks config bookmarks in
  let runs := map (fun '(bookmark, _) => (bookmark, download_page_content w bookmark config)) ts in
  let updated_bookmarks := as_completed (map (fun r => fst (snd r)) runs) in
  (sort_by_id (updated_bookmarks ++ non_downloaded w bookmarks)%list,
   flat_map (fun r => map (pair (fst r)) (snd (snd r))) runs).

End content_downloader.

(** ** Definitions used to state the properties *)

(** A world whose oracles do not depend on their arguments. *)
Definition constant_world (head get : Outcome) (tls : bool) : World :=
  mkWorld (fun _ => head) (fun _ => get) (fun _ _ => tls)
          (fun _ => 0%Q) (fun _ => 1%Q)
          "2024-05-01T12:00:00" "20240501"
          (fun _ => "0123456789abcdef0123456789abcdef")
          (fun _ => None).

Definition plain_response (status : Z) (headers : list (string * string)) : Response.t :=
  Response.mk status headers "".

Definition fresh_bookmark (id : Z) (url domain : string) : Bookmark.t :=
  Bookmark.mk id url domain Status.initial Content.initial.

(** The status of a bookmark after [check_url]. *)
Definition probed (w : World) (b : Bookmark.t) : Status.t :=
  Bookmark.status (fst (check_url w b)).

(** The invariant of the data model on a probed status: every field that
    the probe always determines is set, and [accessible] and [redirect]
    follow from [code]. *)
Definition status_consistent (s : Status.t) : Prop :=
  exists c : Z,
    Status.code s = Some c /\
    Status.accessible s = Some ((200 <=? c) && (c <? 400))%bool /\
    Status.redirect s = Some ((300 <=? c) && (c <? 400))%bool /\
    Status.response_time s <> None /\
    Status.last_checked s <> None.

(** An order of completion loses and invents no result. *)
Definition fair (as_completed : CompletionOrder) : Prop :=
  forall l, Permutation (as_completed l) l.

Definition sorted_by_id (l : list Bookmark.t) : Prop :=
  StronglySorted (fun x y => Bookmark.id x <= Bookmark.id y) l.

(** Following the specification's words: the directory of a path is the
    path with its last ['/']-delimited segment removed. *)
Definition directory_of (path : string) : string :=
  Py.join "/" (removelast (Py.split "/" path)) ++ "/".

(** Following the specification's words: the 0-based position of the
    bookmark at index [k] among the bookmarks of the batch that share its
    domain. *)
Definition rank_within_domain (bookmarks : list Bookmark.t) (k : nat) (b : Bookmark.t) : nat :=
  List.length
    (filter (fun b' => String.eqb (Bookmark.domain b') (Bookmark.domain b))
            (firstn k bookmarks)).

(** One task per bookmark of [bookmarks], delayed by [delay_of] its rank. *)
Definition ranked_tasks (delay_of : nat -> Q) (bookmarks : list Bookmark.t)
  : list (Bookmark.t * Q) :=
  map (fun '(k, b) => (b, delay_of (rank_within_domain bookmarks k b)))
      (enumerate bookmarks).

Definition is_accessible (b : Bookmark.t) : bool :=
  get_flag (Status.accessible (Bookmark.status b)).

(** The task loop of both phases over a [domains] dict, for a given
    [domain_delay] as a function of the index [i]. *)
Definition domain_tasks (delay_of : nat -> Q) (domains : list (string * list Bookmark.t))
  : list (Bookmark.t * Q) :=
  flat_map
    (fun '(_, domain_bookmarks) =>
       map (fun '(i, bookmark) => (bookmark, delay_of i)) (enumerate domain_bookmarks))
    domains.

(** [len(domains[domain])], and [0] when the key is absent *)
Fixpoint entries (domains : list (string * list Bookmark.t)) (domain : string) : nat :=
  match domains with
  | [] => O
  | (k, domain_bookmarks) :: rest =>
      if String.eqb k domain then List.length domain_bookmarks else entries rest domain
  end.

(** The tasks of a list of bookmarks when [seen d] bookmarks of each domain
    [d] came before it. *)
Fixpoint ranked_from (seen : string -> nat) (delay_of : nat -> Q) (l : list Bookmark.t)
  : list (Bookmark.t * Q) :=
  match l with
  | [] => []
  | b :: l' =>
      (b, delay_of (seen (Bookmark.domain b))) ::
      ranked_from
        (fun d => if String.eqb d (Bookmark.domain b) then S (seen d) else seen d)
        delay_of l'
  end.

(** The requests of a log that are GETs. *)
Definition is_GET (r : Request) : bool :=
  match r with GET _ => true | _ => false end.

(** The response whose status is the final code of the probe, if any: the
    follow-up GET's when the HEAD code was 400 or more and the GET
    returned, the HEAD's otherwise. *)
Definition final_response (w : World) (url : string) : option Response.t :=
  match session_head w url with
  | Raised _ => None
  | Returned response =>
      if 400 <=? Response.status response then
        match session_get w url with
        | Returned get_response => Some get_response
        | Raised _ => Some response
        end
      else Some response
  end.

(** A bookmark as the probe phase leaves it when the final code is [c]
    and there is no redirect target. *)
Definition checked_bookmark (id : Z) (url domain : string) (c : Z) : Bookmark.t :=
  Bookmark.mk id url domain
    (Status.mk (Some c) (Some (in_range 200 400 c)) (Some (in_range 300 400 c))
               None (Some 0%Q) None (Some "2024-05-01T12:00:00"))
    Content.initial.

(** A fetch world in which every GET returns 200 with a JSON content type. *)
Definition json_world : World :=
  constant_world (Raised TimeoutError)
    (Returned (plain_response 200 [("Content-Type", "application/json; charset=utf-8")]))
    true.

Definition output_config : Config.t := Config.mk None None None (Some "output").

(** ** The remaining functions of the two modules, and their callers *)

(** [check_url_with_delay] (url-checker.py, lines 183-199): the time slept
    before the probe, [None] when [additional_delay > 0] does not hold,
    and the probe. *)
Definition check_url_with_delay (w : World) (bookmark : Bookmark.t) (additional_delay : Q)
  : option Q * (Bookmark.t * list Request) :=
  (if Qle_bool additional_delay 0 then None else Some additional_delay,
   check_url w bookmark).

(** [download_content_with_delay] (content-downloader.py, lines 145-161) *)
Definition download_content_with_delay (w : World) (bookmark : Bookmark.t)
    (config : Config.t) (additional_delay : Q)
  : option Q * (Bookmark.t * list Request) :=
  (if Qle_bool additional_delay 0 then None else Some additional_delay,
   content_downloader.download_page_content w bookmark config).

(** [sum(1 for b in bookmarks if flag(b))] *)
Definition count_if (flag : Bookmark.t -> bool) (bookmarks : list Bookmark.t) : Z :=
  Z.of_nat (List.length (filter flag bookmarks)).

(** [check_urls] (url-checker.py, lines 201-231): the updated bookmarks and
    the three numbers of the log line, [accessible], [redirected] and
    [len(bookmarks) - accessible].  No step of the embedded
    [check_urls_async] raises, so the [except] branch, which returns the
    argument, is not taken. *)
Definition check_urls (w : World) (as_completed : CompletionOrder)
    (bookmarks : list Bookmark.t) (config : Config.t)
  : list Bookmark.t * (Z * Z * Z) :=
  let updated_bookmarks := fst (url_checker.check_urls_async w as_completed bookmarks config) in
  let accessible :=
    count_if (fun b => get_flag (Status.accessible (Bookmark.status b))) updated_bookmarks in
  let redirected :=
    count_if (fun b => get_flag (Status.redirect (Bookmark.status b))) updated_bookmarks in
  (updated_bookmarks,
   (accessible, redirected, Z.of_nat (List.length bookmarks) - accessible)).

(** [if 'output_dir' not in config: config['output_dir'] = 'output'] *)
Definition with_output_dir (config : Config.t) : Config.t :=
  match Config.output_dir config with
  | Some _ => config
  | None =>
      Config.mk (Config.timeout config) (Config.delay config)
                (Config.user_agent config) (Some "output")
  end.

(** [download_content] (content-downloader.py, lines 233-270): the content
    directory is created before the [try], so a failure there propagates;
    otherwise the updated bookmarks, the requests made and the number of
    downloaded pages of the log line. *)
Definition download_content (w : World) (as_completed : CompletionOrder)
    (bookmarks : list Bookmark.t) (config : Config.t)
  : Exn + (list Bookmark.t * list (Bookmark.t * Request) * Z) :=
  let config := with_output_dir config in
  let output_dir := match Config.output_dir config with Some d => d | None => "" end in
  let content_dir := content_downloader.os_path_join output_dir "data/content" in
  match storage_failure w content_dir with
  | Some e => inl e
  | None =>
      let '(updated_bookmarks, requests) :=
        content_downloader.download_content_async w as_completed bookmarks config in
      inr (updated_bookmarks, requests,
           count_if (fun b => Content.downloaded (Bookmark.content b)) updated_bookmarks)
  end.

(** Steps 2 and 3 of [main] (bookmark-analyzer.py, lines 128-138), when
    neither is skipped: the bookmarks returned by [check_urls] are handed
    to [download_content] with the same configuration. *)
Definition check_and_download (probe_world fetch_world : World)
    (probe_order fetch_order : CompletionOrder)
    (bookmarks : list Bookmark.t) (config : Config.t)
  : Exn + (list Bookmark.t * list (Bookmark.t * Request) * Z) :=
  let bookmarks := fst (check_urls probe_world probe_order bookmarks config) in
  download_content fetch_world fetch_order bookmarks config.

(** What the fetch phase makes of one bookmark. *)
Definition fetched (w : World) (config : Config.t) (b : Bookmark.t) : Bookmark.t :=
  if is_accessible b
  then fst (content_downloader.download_page_content w b config)
  else Bookmark.set_content b (content_downloader.inaccessible_content w).

Definition increasing_ids (l : list Bookmark.t) : Prop :=
  StronglySorted (fun x y => Bookmark.id x < Bookmark.id y) l.

(** A probe world with one moved page, one page that times out, and every
    other page answering 200. *)
Definition mixed_world : World :=
  mkWorld
    (fun url => if String.eqb url "http://a.b/moved"
                then Returned (plain_response 301 [("Location", "/new")])
                else if String.eqb url "http://a.b/gone"
                     then Raised TimeoutError
                     else Returned (plain_response 200 []))
    (fun _ => Returned (plain_response 200 []))
    (fun _ _ => true)
    (fun _ => 0%Q) (fun _ => 1%Q) "2024-05-01T12:00:00" "20240501"
    (fun _ => "0123456789abcdef0123456789abcdef") (fun _ => None).

Definition mixed_batch : list Bookmark.t :=
  [fresh_bookmark 1 "http://a.b/x" "a.b";
   fresh_bookmark 2 "http://a.b/moved" "a.b";
   fresh_bookmark 3 "http://a.b/gone" "a.b"].

(** [domains] groups the bookmarks of [seen]: its keys are distinct, and
    every key holds, in order, the bookmarks of [seen] of that domain, of
    which there is at least one. *)
Definition groups (seen : list Bookmark.t) (domains : list (string * list Bookmark.t)) : Prop :=
  NoDup (map fst domains) /\
  (forall domain domain_bookmarks,
      In (domain, domain_bookmarks) domains ->
      domain_bookmarks <> [] /\
      domain_bookmarks =
        filter (fun b => String.eqb (Bookmark.domain b) domain) seen) /\
  (forall b, In b seen -> In (Bookmark.domain b) (map fst domains)).

(** A fetch world in which the content directory cannot be created. *)
Definition readonly_world : World :=
  mkWorld (fun _ => Raised TimeoutError)
          (fun _ => Returned (plain_response 200 []))
          (fun _ _ => true)
          (fun _ => 0%Q) (fun _ => 1%Q) "2024-05-01T12:00:00" "20240501"
          (fun _ => "0123456789abcdef0123456789abcdef")
          (fun path =>
             if String.eqb path "output/data/content"
             then Some (OtherException "[Errno 13] Permission denied: 'output/data/content'")
             else None).

(** * Properties *)

Example urlparse_ex1 :
  urllib.urlparse "https://a.b/x/y" = urllib.mkParse "https" "a.b" "/x/y".
Proof. reflexivity. Qed.

Example urlparse_ex2 :
  urllib.urlparse "HTTP://a.b:8080/x/y;p/z;q?k=v#f" = urllib.mkParse "http" "a.b:8080" "/x/y;p/z".
Proof. reflexivity. Qed.

Example urlparse_ex3 :
  urllib.urlparse "https://a.b" = urllib.mkParse "https" "a.b" "".
Proof. reflexivity. Qed.

Example urlparse_ex4 :
  urllib.urlparse (" https://a" ++ String (ascii_of_nat 9) ".b/x")
  = urllib.mkParse "https" "a.b" "/x".
Proof. reflexivity. Qed.

Example split_ex : Py.split "/" "/x/y" = [""; "x"; "y"].
Proof. reflexivity. Qed.

Example strip_ex : Py.strip "/" "//x/y/" = "x/y".
Proof. reflexivity. Qed.


(** ** The probe of one bookmark *)

Section Probe.

Variable w : World.

Lemma probe_attempt_returned (url : string) (locals : Locals) (calls : list Request) :
  probe_attempt w url = (inr locals, calls) ->
  exists response c,
    session_head w url = Returned response /\ fst (fst locals) = Some c.
Proof.
  unfold probe_attempt.
  destruct (session_head w url) as [response | e]; [| discriminate].
  intros H. exists response.
  destruct (400 <=? Response.status response);
    [destruct (session_get w url) |];
    destruct (Py.startswith url "https://");
    inversion H; subst; simpl; eauto.
Qed.

Lemma probe_attempt_raised (url : string) (e : Exn) (calls : list Request) :
  probe_attempt w url = (inl e, calls) ->
  session_head w url = Raised e /\ calls = [HEAD url].
Proof.
  unfold probe_attempt.
  destruct (session_head w url) as [response | e'].
  - destruct (400 <=? Response.status response);
      [destruct (session_get w url) |];
      destruct (Py.startswith url "https://"); discriminate.
  - intros H; inversion H; auto.
Qed.

(** The status written by [check_url], from the outcome of the [try]. *)
Lemma probed_unfold (b : Bookmark.t) :
  probed w b =
  let '(status_code, redirect_url, ssl_valid) :=
    match fst (probe_attempt w (Bookmark.url b)) with
    | inr locals => locals
    | inl e => (Some (error_code e), None, None)
    end in
  Status.mk status_code
    (Some (in_range 200 400 (or_0 status_code)))
    (Some (in_range 300 400 (or_0 status_code)))
    redirect_url
    (Some (time_end w (Bookmark.url b) - time_start w (Bookmark.url b))%Q)
    ssl_valid
    (Some (now_isoformat w)).
Proof.
  unfold probed, check_url.
  destruct (probe_attempt w (Bookmark.url b)) as [[e | [[sc ru] ssl]] calls];
    reflexivity.
Qed.

Lemma probed_code_raised (b : Bookmark.t) (e : Exn) :
  session_head w (Bookmark.url b) = Raised e ->
  probed w b =
  Status.mk (Some (error_code e))
    (Some (in_range 200 400 (error_code e)))
    (Some (in_range 300 400 (error_code e)))
    None
    (Some (time_end w (Bookmark.url b) - time_start w (Bookmark.url b))%Q)
    None
    (Some (now_isoformat w)).
Proof.
  intros H. rewrite probed_unfold. unfold probe_attempt. rewrite H. reflexivity.
Qed.

Lemma check_url_consistent (b : Bookmark.t) : status_consistent (probed w b).
Proof.
  rewrite probed_unfold.
  destruct (probe_attempt w (Bookmark.url b)) as [[e | [[sc ru] ssl]] calls] eqn:E;
    simpl.
  - exists (error_code e). simpl. repeat split; discriminate.
  - apply probe_attempt_returned in E. destruct E as (r & c & _ & Hc).
    simpl in Hc. subst sc. exists c. simpl. repeat split; discriminate.
Qed.

Lemma check_url_keeps_identity (b : Bookmark.t) :
  Bookmark.id (fst (check_url w b)) = Bookmark.id b /\
  Bookmark.url (fst (check_url w b)) = Bookmark.url b /\
  Bookmark.domain (fst (check_url w b)) = Bookmark.domain b.
Proof.
  unfold check_url.
  destruct (probe_attempt w (Bookmark.url b)) as [[e | [[sc ru] ssl]] calls];
    simpl; auto.
Qed.

End Probe.

(** ** Sorting by [id] *)

Lemma insert_by_id_perm (b : Bookmark.t) (l : list Bookmark.t) :
  Permutation (insert_by_id b l) (b :: l).
Proof.
  induction l as [| x l IH]; simpl.
  - apply Permutation_refl.
  - destruct (Bookmark.id b <=? Bookmark.id x).
    + apply Permutation_refl.
    + apply perm_trans with (x :: b :: l).
      * apply perm_skip, IH.
      * apply perm_swap.
Qed.

Lemma sort_by_id_perm (l : list Bookmark.t) : Permutation (sort_by_id l) l.
Proof.
  induction l as [| b l IH]; simpl.
  - apply perm_nil.
  - apply perm_trans with (b :: sort_by_id l).
    + apply insert_by_id_perm.
    + apply perm_skip, IH.
Qed.

Lemma insert_by_id_sorted (b : Bookmark.t) (l : list Bookmark.t) :
  sorted_by_id l -> sorted_by_id (insert_by_id b l).
Proof.
  unfold sorted_by_id.
  induction 1 as [| x l Hs IH Hx]; simpl.
  - constructor; constructor.
  - destruct (Bookmark.id b <=? Bookmark.id x) eqn:E.
    + apply Z.leb_le in E. constructor.
      * constructor; assumption.
      * constructor; [assumption |].
        eapply Forall_impl; [| exact Hx]. simpl. intros; lia.
    + apply Z.leb_gt in E. constructor; [exact IH |].
      apply (Permutation_Forall (Permutation_sym (insert_by_id_perm b l))).
      constructor; [lia | exact Hx].
Qed.

Lemma sort_by_id_sorted (l : list Bookmark.t) : sorted_by_id (sort_by_id l).
Proof.
  induction l as [| b l IH]; simpl.
  - constructor.
  - apply insert_by_id_sorted, IH.
Qed.

(** Two sorted lists with the same elements and no repeated [id] are equal:
    with distinct ids the sorted output does not depend on the order of the
    input. *)
Lemma sorted_by_id_unique (l1 l2 : list Bookmark.t) :
  sorted_by_id l1 -> sorted_by_id l2 ->
  NoDup (map Bookmark.id l1) ->
  Permutation l1 l2 -> l1 = l2.
Proof.
  unfold sorted_by_id. intros H1. revert l2.
  induction H1 as [| x l1 Hs1 IH Hx]; intros l2 H2 Hnd Hp.
  - apply Permutation_nil in Hp. auto.
  - destruct H2 as [| y l2 Hs2 Hy].
    + apply Permutation_sym, Permutation_nil in Hp. discriminate.
    + simpl in Hnd. inversion Hnd as [| ? ? Hnin Hnd']; subst.
      assert (Hxy : x = y).
      { assert (Hin1 : In x (y :: l2)) by
          (eapply Permutation_in; [exact Hp | left; reflexivity]).
        assert (Hin2 : In y (x :: l1)) by
          (eapply Permutation_in; [apply Permutation_sym; exact Hp | left; reflexivity]).
        destruct Hin1 as [E | Hin1]; [auto |].
        destruct Hin2 as [E | Hin2]; [auto |].
        rewrite Forall_forall in Hx, Hy.
        specialize (Hx _ Hin2). specialize (Hy _ Hin1).
        assert (Eid : Bookmark.id y = Bookmark.id x) by lia.
        exfalso. apply Hnin. rewrite <- Eid. apply in_map, Hin2. }
      subst y. f_equal. apply IH; auto.
      eapply Permutation_cons_inv; exact Hp.
Qed.

(** ** The domain scheduler *)

Section Scheduler.

Variable delay_of : nat -> Q.

Lemma combine_map_fst {A B C : Type} (f : A -> C) (s : list A) (l : list B) :
  combine (map f s) l = map (fun p => (f (fst p), snd p)) (combine s l).
Proof.
  revert l. induction s as [| a s IH]; intros [| x l]; simpl; try reflexivity.
  f_equal. apply IH.
Qed.

Lemma enumerate_cons {A : Type} (x : A) (l : list A) :
  enumerate (x :: l) = (O, x) :: map (fun p => (S (fst p), snd p)) (enumerate l).
Proof.
  unfold enumerate. simpl. f_equal.
  rewrite <- seq_shift. apply combine_map_fst.
Qed.

Lemma enumerate_snoc {A : Type} (x : A) (l : list A) :
  enumerate (l ++ [x])%list = (enumerate l ++ [(List.length l, x)])%list.
Proof.
  induction l as [| a l IH].
  - reflexivity.
  - change ((a :: l) ++ [x])%list with (a :: (l ++ [x]))%list.
    rewrite !enumerate_cons, IH, map_app. reflexivity.
Qed.

Lemma domain_tasks_append (domains : list (string * list Bookmark.t)) (b : Bookmark.t) :
  Permutation
    (domain_tasks delay_of (domains_append domains b))
    (domain_tasks delay_of domains ++ [(b, delay_of (entries domains (Bookmark.domain b)))])%list.
Proof.
  induction domains as [| [k bs] rest IH]; simpl.
  - apply Permutation_refl.
  - destruct (String.eqb k (Bookmark.domain b)); simpl.
    + rewrite enumerate_snoc, map_app. simpl.
      rewrite <- !app_assoc. apply Permutation_app_head.
      apply Permutation_app_comm with (l := [_]).
    + rewrite <- app_assoc. apply Permutation_app_head, IH.
Qed.

Lemma entries_append (domains : list (string * list Bookmark.t)) (b : Bookmark.t) (d : string) :
  entries (domains_append domains b) d =
  if String.eqb d (Bookmark.domain b) then S (entries domains d) else entries domains d.
Proof.
  induction domains as [| [k bs] rest IH]; simpl.
  - rewrite String.eqb_sym. destruct (String.eqb d (Bookmark.domain b)); reflexivity.
  - destruct (String.eqb k (Bookmark.domain b)) eqn:Ekb; simpl.
    + apply String.eqb_eq in Ekb. subst k.
      rewrite (String.eqb_sym d).
      destruct (String.eqb (Bookmark.domain b) d); [| reflexivity].
      rewrite length_app. simpl. lia.
    + destruct (String.eqb k d) eqn:Ekd; [| exact IH].
      apply String.eqb_eq in Ekd. subst k.
      rewrite Ekb. reflexivity.
Qed.

Lemma ranked_from_ext (s1 s2 : string -> nat) (l : list Bookmark.t) :
  (forall d, s1 d = s2 d) -> ranked_from s1 delay_of l = ranked_from s2 delay_of l.
Proof.
  revert s1 s2. induction l as [| b l IH]; intros s1 s2 H; simpl.
  - reflexivity.
  - rewrite H. f_equal. apply IH. intros d. rewrite H. reflexivity.
Qed.

Lemma fold_domains_tasks (l : list Bookmark.t) (domains : list (string * list Bookmark.t)) :
  Permutation
    (domain_tasks delay_of (fold_left domains_append l domains))
    (domain_tasks delay_of domains ++ ranked_from (entries domains) delay_of l)%list.
Proof.
  revert domains. induction l as [| b l IH]; intros domains; simpl.
  - rewrite app_nil_r. apply Permutation_refl.
  - eapply perm_trans; [apply IH |].
    eapply perm_trans;
      [apply Permutation_app_tail, domain_tasks_append |].
    rewrite <- app_assoc. simpl.
    rewrite (ranked_from_ext _ _ l (entries_append domains b)).
    apply Permutation_refl.
Qed.

Lemma rank_within_domain_cons (b x : Bookmark.t) (l : list Bookmark.t) (k : nat) :
  rank_within_domain (b :: l) (S k) x =
  ((if String.eqb (Bookmark.domain x) (Bookmark.domain b) then 1 else 0)
   + rank_within_domain l k x)%nat.
Proof.
  unfold rank_within_domain. simpl.
  rewrite (String.eqb_sym (Bookmark.domain b)).
  destruct (String.eqb (Bookmark.domain x) (Bookmark.domain b)); reflexivity.
Qed.

Lemma ranked_from_rank (l : list Bookmark.t) (seen : string -> nat) :
  ranked_from seen delay_of l =
  map (fun '(k, b) =>
         (b, delay_of (seen (Bookmark.domain b) + rank_within_domain l k b)%nat))
      (enumerate l).
Proof.
  revert seen. induction l as [| b l IH]; intros seen.
  - reflexivity.
  - rewrite enumerate_cons. simpl. f_equal.
    + unfold rank_within_domain. simpl. rewrite Nat.add_0_r. reflexivity.
    + rewrite IH, map_map. apply map_ext. intros [k x]. simpl fst; simpl snd.
      rewrite rank_within_domain_cons.
      destruct (String.eqb (Bookmark.domain x) (Bookmark.domain b));
        do 2 f_equal; lia.
Qed.

Lemma grouped_tasks_ranked (l : list Bookmark.t) :
  Permutation
    (domain_tasks delay_of (fold_left domains_append l []))
    (ranked_tasks delay_of l).
Proof.
  eapply perm_trans; [apply fold_domains_tasks |]. simpl.
  rewrite ranked_from_rank. apply Permutation_refl.
Qed.

Lemma ranked_tasks_bookmarks (l : list Bookmark.t) :
  map fst (ranked_tasks delay_of l) = l.
Proof.
  unfold ranked_tasks. rewrite map_map.
  assert (H : forall (f : nat * Bookmark.t -> nat) (l : list Bookmark.t),
             map (fun p => snd p) (enumerate l) = l).
  { intros _ l0. induction l0 as [| x l0 IH]; [reflexivity |].
    rewrite enumerate_cons. simpl. rewrite map_map. simpl. f_equal. exact IH. }
  rewrite <- (H fst l) at 2. apply map_ext. intros [k b]. reflexivity.
Qed.

End Scheduler.

(** ** Splitting and joining paths *)

Lemma append_empty_r (s : string) : s ++ "" = s.
Proof. induction s as [| c s IH]; simpl; [| rewrite IH]; reflexivity. Qed.

Lemma append_assoc (s t u : string) : (s ++ t) ++ u = s ++ (t ++ u).
Proof. induction s as [| c s IH]; simpl; [| rewrite IH]; reflexivity. Qed.

Lemma split_nonempty (sep : ascii) (s : string) : Py.split sep s <> [].
Proof.
  destruct s as [| c s]; simpl; [discriminate |].
  destruct (Ascii.eqb c sep); [discriminate |].
  destruct (Py.split sep s); discriminate.
Qed.

Lemma join_cons_char (sep : string) (c : ascii) (w : string) (ws : list string) :
  Py.join sep (String c w :: ws) = String c (Py.join sep (w :: ws)).
Proof. destruct ws; reflexivity. Qed.

Lemma join_snoc (sep : string) (l : list string) (x : string) :
  l <> [] -> Py.join sep (l ++ [x])%list = Py.join sep l ++ sep ++ x.
Proof.
  induction l as [| a l IH]; intros Hl; [contradiction |].
  destruct l as [| a' l]; [reflexivity |].
  change (Py.join sep ((a :: a' :: l) ++ [x])%list)
    with (a ++ sep ++ Py.join sep ((a' :: l) ++ [x])%list).
  rewrite IH by discriminate.
  change (Py.join sep (a :: a' :: l)) with (a ++ sep ++ Py.join sep (a' :: l)).
  rewrite !append_assoc. reflexivity.
Qed.

(** [sep.join(s.split(sep)) == s] *)
Lemma join_split (s : string) : Py.join "/" (Py.split "/" s) = s.
Proof.
  induction s as [| c s IH]; [reflexivity |]. simpl.
  destruct (Ascii.eqb c "/") eqn:E.
  - apply Ascii.eqb_eq in E. subst c.
    destruct (Py.split "/" s) as [| w ws] eqn:Es;
      [exfalso; eapply split_nonempty; exact Es |].
    change (Py.join "/" ("" :: w :: ws)) with ("/" ++ Py.join "/" (w :: ws)).
    rewrite IH. reflexivity.
  - destruct (Py.split "/" s) as [| w ws] eqn:Es;
      [exfalso; eapply split_nonempty; exact Es |].
    rewrite join_cons_char, IH. reflexivity.
Qed.

(** A path that ends with ['/'] has an empty last segment. *)
Lemma split_trailing_slash (s : string) :
  Py.endswith s "/" = true ->
  exists l, l <> [] /\ Py.split "/" s = (l ++ [""])%list.
Proof.
  induction s as [| c s IH]; [discriminate |].
  intros H.
  change (String.eqb (String c s) "/" || Py.endswith s "/" = true)%bool in H.
  apply orb_true_iff in H. destruct H as [H | H].
  - apply String.eqb_eq in H. inversion H; subst.
    exists [""]. split; [discriminate | reflexivity].
  - destruct (IH H) as (l & Hl & El). cbn [Py.split]. rewrite El.
    destruct (Ascii.eqb c "/").
    + exists ("" :: l). split; [discriminate | reflexivity].
    + destruct l as [| w ws]; [contradiction |]. simpl.
      exists (String c w :: ws). split; [discriminate | reflexivity].
Qed.

(** On a path that ends with ['/'], removing the (empty) last segment and
    restoring the separator gives the path back: the two branches of the
    code compute the same directory. *)
Lemma directory_of_trailing_slash (path : string) :
  Py.endswith path "/" = true -> directory_of path = path.
Proof.
  intros H. unfold directory_of.
  destruct (split_trailing_slash path H) as (l & Hl & El).
  rewrite <- (join_split path) at 2. rewrite El.
  rewrite removelast_last, join_snoc by assumption.
  rewrite append_empty_r. reflexivity.
Qed.

Lemma absolute_redirect_relative (url target : string) :
  target <> "" ->
  is_absolute target = false ->
  absolute_redirect url (Some target) =
  let parsed_url := urllib.urlparse url in
  let base_url := urllib.scheme parsed_url ++ "://" ++ urllib.netloc parsed_url in
  Some (if Py.startswith target "/"
        then base_url ++ target
        else base_url ++ directory_of (urllib.path parsed_url) ++ target).
Proof.
  intros Hne Habs. unfold absolute_redirect, Py.truthy.
  rewrite Habs.
  destruct (String.eqb target "") eqn:E;
    [apply String.eqb_eq in E; contradiction |].
  simpl.
  destruct (Py.startswith target "/"); [reflexivity |].
  destruct (Py.endswith (urllib.path (urllib.urlparse url)) "/") eqn:Es.
  - rewrite directory_of_trailing_slash by exact Es. reflexivity.
  - reflexivity.
Qed.

(** ** The two phases as batches *)

Section Batch.

Variable w : World.
Variable config : Config.t.

Lemma probe_tasks_ranked (bookmarks : list Bookmark.t) :
  Permutation
    (url_checker.tasks config bookmarks)
    (ranked_tasks (fun i => nat_to_Q i * url_checker.delay config / 2)%Q bookmarks).
Proof.
  exact (grouped_tasks_ranked
           (fun i => nat_to_Q i * url_checker.delay config / 2)%Q bookmarks).
Qed.

Lemma fetch_group_domains (bookmarks : list Bookmark.t) (domains : list (string * list Bookmark.t)) :
  fold_left
    (fun domains bookmark =>
       if negb (get_flag (Status.accessible (Bookmark.status bookmark)))
       then domains
       else domains_append domains bookmark)
    bookmarks domains
  = fold_left domains_append (filter is_accessible bookmarks) domains.
Proof.
  revert domains. induction bookmarks as [| b l IH]; intros domains; simpl.
  - reflexivity.
  - unfold is_accessible at 1.
    destruct (get_flag (Status.accessible (Bookmark.status b))); simpl; apply IH.
Qed.

Lemma fetch_tasks_ranked (bookmarks : list Bookmark.t) :
  Permutation
    (content_downloader.tasks config bookmarks)
    (ranked_tasks (fun i => nat_to_Q i * content_downloader.delay config)%Q
                  (filter is_accessible bookmarks)).
Proof.
  unfold content_downloader.tasks, content_downloader.group_domains.
  rewrite fetch_group_domains.
  exact (grouped_tasks_ranked
           (fun i => nat_to_Q i * content_downloader.delay config)%Q
           (filter is_accessible bookmarks)).
Qed.

Lemma probe_tasks_bookmarks (bookmarks : list Bookmark.t) :
  Permutation (map fst (url_checker.tasks config bookmarks)) bookmarks.
Proof.
  eapply perm_trans; [apply Permutation_map, probe_tasks_ranked |].
  rewrite ranked_tasks_bookmarks. apply Permutation_refl.
Qed.

Lemma fetch_tasks_bookmarks (bookmarks : list Bookmark.t) :
  Permutation (map fst (content_downloader.tasks config bookmarks))
              (filter is_accessible bookmarks).
Proof.
  eapply perm_trans; [apply Permutation_map, fetch_tasks_ranked |].
  rewrite ranked_tasks_bookmarks. apply Permutation_refl.
Qed.

(** The results of a run, whatever task each comes from. *)
Lemma runs_results {R : Type} (run : Bookmark.t -> Bookmark.t * R) (ts : list (Bookmark.t * Q)) :
  map (fun r : Bookmark.t * (Bookmark.t * R) => fst (snd r))
      (map (fun '(bookmark, _) => (bookmark, run bookmark)) ts)
  = map (fun b => fst (run b)) (map fst ts).
Proof.
  rewrite !map_map. apply map_ext. intros [b d]. reflexivity.
Qed.

Lemma runs_log {R : Type} (run : Bookmark.t -> Bookmark.t * list R)
    (ts : list (Bookmark.t * Q)) (b : Bookmark.t) (r : R) :
  In (b, r)
     (flat_map (fun x : Bookmark.t * (Bookmark.t * list R) => map (pair (fst x)) (snd (snd x)))
               (map (fun '(bookmark, _) => (bookmark, run bookmark)) ts)) <->
  In b (map fst ts) /\ In r (snd (run b)).
Proof.
  rewrite in_flat_map. split.
  - intros ([b0 [b1 rs]] & Hin & Hr). simpl in Hr.
    apply in_map_iff in Hin. destruct Hin as ([b2 d] & E & Hin).
    inversion E; subst. apply in_map_iff in Hr. destruct Hr as (r' & E' & Hr).
    inversion E'; subst. split; [| rewrite H1; exact Hr].
    apply in_map_iff. exists (b, d). auto.
  - intros (Hb & Hr). apply in_map_iff in Hb. destruct Hb as ([b' d] & E & Hin).
    simpl in E. subst b'. exists (b, run b). split.
    + apply in_map_iff. exists (b, d). auto.
    + simpl. apply in_map, Hr.
Qed.

Lemma check_urls_async_results (as_completed : CompletionOrder) (bookmarks : list Bookmark.t) :
  fair as_completed ->
  Permutation (fst (url_checker.check_urls_async w as_completed bookmarks config))
              (map (fun b => fst (check_url w b)) bookmarks).
Proof.
  intros Hfair. unfold url_checker.check_urls_async. simpl.
  eapply perm_trans; [apply sort_by_id_perm |].
  eapply perm_trans; [apply Hfair |].
  rewrite (runs_results (check_url w)).
  apply Permutation_map, probe_tasks_bookmarks.
Qed.

Lemma download_content_async_results (as_completed : CompletionOrder) (bookmarks : list Bookmark.t) :
  fair as_completed ->
  Permutation
    (fst (content_downloader.download_content_async w as_completed bookmarks config))
    (map (fun b => fst (content_downloader.download_page_content w b config))
         (filter is_accessible bookmarks)
     ++ content_downloader.non_downloaded w bookmarks)%list.
Proof.
  intros Hfair. unfold content_downloader.download_content_async. simpl.
  eapply perm_trans; [apply sort_by_id_perm |].
  apply Permutation_app_tail.
  eapply perm_trans; [apply Hfair |].
  rewrite (runs_results (fun b => content_downloader.download_page_content w b config)).
  apply Permutation_map, fetch_tasks_bookmarks.
Qed.

Lemma download_content_async_log (as_completed : CompletionOrder)
    (bookmarks : list Bookmark.t) (b : Bookmark.t) (r : Request) :
  In (b, r) (snd (content_downloader.download_content_async w as_completed bookmarks config)) <->
  (In b bookmarks /\ is_accessible b = true) /\
  In r (snd (content_downloader.download_page_content w b config)).
Proof.
  unfold content_downloader.download_content_async. simpl.
  rewrite (runs_log (fun b => content_downloader.download_page_content w b config)).
  assert (H : In b (map fst (content_downloader.tasks config bookmarks)) <->
              In b bookmarks /\ is_accessible b = true).
  { rewrite <- filter_In. split; apply Permutation_in.
    - apply fetch_tasks_bookmarks.
    - apply Permutation_sym, fetch_tasks_bookmarks. }
  rewrite H. reflexivity.
Qed.

Lemma download_page_content_keeps_status (b : Bookmark.t) :
  Bookmark.status (fst (content_downloader.download_page_content w b config)) = Bookmark.status b /\
  Bookmark.id (fst (content_downloader.download_page_content w b config)) = Bookmark.id b.
Proof.
  unfold content_downloader.download_page_content.
  destruct (negb (get_flag (Status.accessible (Bookmark.status b)))); [auto |].
  destruct (content_downloader.fetch_attempt w config (content_downloader.target_url b));
    simpl; auto.
Qed.

End Batch.

(** ** Status invariants after the probe phase *)

Lemma status_consistent_301 (s : Status.t) :
  status_consistent s ->
  Status.code s = Some 301 ->
  Status.redirect s = Some true /\ Status.accessible s = Some true.
Proof.
  intros (c & Hc & Ha & Hr & _) H301.
  rewrite Hc in H301. inversion H301; subst c.
  rewrite Ha, Hr. split; reflexivity.
Qed.

(** C1, as amended: after the probe phase every bookmark of the batch has a
    populated status with [accessible = (200 <= code < 400)] and
    [redirect = (300 <= code < 400)]; in particular [code = 301] gives
    [redirect = true] and [accessible = true]. *)
Theorem probe_status_consistent (w : World) (as_completed : CompletionOrder)
    (bookmarks : list Bookmark.t) (config : Config.t) :
  fair as_completed ->
  Forall (fun b =>
            status_consistent (Bookmark.status b) /\
            (Status.code (Bookmark.status b) = Some 301 ->
             Status.redirect (Bookmark.status b) = Some true /\
             Status.accessible (Bookmark.status b) = Some true))
         (fst (url_checker.check_urls_async w as_completed bookmarks config)).
Proof.
  intros Hfair.
  eapply Permutation_Forall.
  - apply Permutation_sym, check_urls_async_results, Hfair.
  - apply Forall_forall. intros b' Hin.
    apply in_map_iff in Hin. destruct Hin as (b & <- & _).
    assert (Hc : status_consistent (Bookmark.status (fst (check_url w b))))
      by apply check_url_consistent.
    split; [exact Hc | apply status_consistent_301, Hc].
Qed.

Lemma rev_fair : fair (@rev Bookmark.t).
Proof. intros l. apply Permutation_sym, Permutation_rev. Qed.

Lemma probe_status_consistent_witness :
  Forall (fun b =>
            status_consistent (Bookmark.status b) /\
            (Status.code (Bookmark.status b) = Some 301 ->
             Status.redirect (Bookmark.status b) = Some true /\
             Status.accessible (Bookmark.status b) = Some true))
         (fst (url_checker.check_urls_async
                 (constant_world (Returned (plain_response 301 [])) (Raised TimeoutError) true)
                 (@rev Bookmark.t)
                 [fresh_bookmark 2 "http://a.b/x" "a.b"; fresh_bookmark 1 "http://c.d/" "c.d"]
                 (Config.mk None None None None))).
Proof.
  apply probe_status_consistent. exact rev_fair.
Defined.

(** C1, as stated, fails on its example: a probe that ends with code 301
    is a redirect and is accessible. *)
Lemma code_301_is_accessible :
  Status.code
    (probed (constant_world (Returned (plain_response 301 [])) (Raised TimeoutError) true)
            (fresh_bookmark 1 "http://a.b/x" "a.b")) = Some 301 /\
  Status.redirect
    (probed (constant_world (Returned (plain_response 301 [])) (Raised TimeoutError) true)
            (fresh_bookmark 1 "http://a.b/x" "a.b")) = Some true /\
  Status.accessible
    (probed (constant_world (Returned (plain_response 301 [])) (Raised TimeoutError) true)
            (fresh_bookmark 1 "http://a.b/x" "a.b")) <> Some false.
Proof.
  repeat split; try reflexivity. discriminate.
Qed.

(** ** TLS validity *)

Lemma prefix_app (p s : string) :
  String.prefix p s = true -> exists rest, s = p ++ rest.
Proof.
  revert s. induction p as [| a p IH]; intros s H.
  - exists s. reflexivity.
  - destruct s as [| c s]; [discriminate |]. simpl in H.
    destruct (ascii_dec a c) as [-> | _]; [| discriminate].
    destruct (IH s H) as (rest & ->). exists rest. reflexivity.
Qed.

Lemma https_prefix_scheme (url : string) :
  Py.startswith url "https://" = true ->
  urllib.scheme (urllib.urlparse url) = "https".
Proof.
  intros H. apply prefix_app in H. destruct H as (rest & ->).
  unfold urllib.urlparse. simpl.
  destruct (urllib.split_netloc _). reflexivity.
Qed.





(** ** Error taxonomy of the probe *)

(** C4: when the HEAD request raises, the code is [0] for a connection
    failure, the carried status for a response error, [-1] for another
    client error, [408] for a timeout and [-2] for anything else; the
    exception stops at the bookmark: every bookmark of the batch comes out
    of the phase with a consistent status. *)
Theorem probe_error_taxonomy (w : World) (b : Bookmark.t) (e : Exn)
    (as_completed : CompletionOrder) (bookmarks : list Bookmark.t) (config : Config.t) :
  session_head w (Bookmark.url b) = Raised e ->
  fair as_completed ->
  Status.code (probed w b) =
    Some (match e with
          | ClientConnectorError _ => 0
          | ClientResponseError status _ => status
          | ClientError _ => -1
          | TimeoutError => 408
          | OtherException _ => -2
          end) /\
  Permutation (map Bookmark.id (fst (url_checker.check_urls_async w as_completed bookmarks config)))
              (map Bookmark.id bookmarks) /\
  Forall (fun b' => status_consistent (Bookmark.status b'))
         (fst (url_checker.check_urls_async w as_completed bookmarks config)).
Proof.
  intros H Hfair. split; [| split].
  - rewrite (probed_code_raised w b e H). destruct e; reflexivity.
  - eapply perm_trans.
    + apply Permutation_map, check_urls_async_results, Hfair.
    + rewrite map_map.
      erewrite map_ext; [apply Permutation_refl |].
      intros a. apply check_url_keeps_identity.
  - eapply Permutation_Forall.
    + apply Permutation_sym, check_urls_async_results, Hfair.
    + apply Forall_forall. intros b' Hin.
      apply in_map_iff in Hin. destruct Hin as (b0 & <- & _).
      apply check_url_consistent.
Qed.

Lemma probe_error_taxonomy_witness :
  Status.code
    (probed (constant_world (Raised TimeoutError) (Raised TimeoutError) true)
            (fresh_bookmark 1 "https://a.b/x" "a.b")) = Some 408.
Proof.
  apply (probe_error_taxonomy
           (constant_world (Raised TimeoutError) (Raised TimeoutError) true)
           (fresh_bookmark 1 "https://a.b/x" "a.b") TimeoutError
           (@rev Bookmark.t)
           [fresh_bookmark 1 "https://a.b/x" "a.b"; fresh_bookmark 2 "https://a.b/y" "a.b"]
           (Config.mk None None None None)).
  - reflexivity.
  - exact rev_fair.
Defined.

(** ** Redirect targets *)

Lemma probed_redirect_head (w : World) (b : Bookmark.t) (response : Response.t) :
  session_head w (Bookmark.url b) = Returned response ->
  Response.status response < 400 ->
  Status.code (probed w b) = Some (Response.status response) /\
  Status.redirect_url (probed w b) =
  (if in_range 300 400 (Response.status response)
   then absolute_redirect (Bookmark.url b) (Response.header response "Location")
   else None) /\
  ~ In (GET (Bookmark.url b)) (snd (check_url w b)).
Proof.
  intros H Hlt. rewrite probed_unfold. unfold check_url, probe_attempt. rewrite H.
  assert (E : (400 <=? Response.status response) = false) by (apply Z.leb_gt; lia).
  rewrite E.
  destruct (Py.startswith (Bookmark.url b) "https://"); simpl;
    (split; [reflexivity | split; [reflexivity |]]);
    intros Hin; repeat (destruct Hin as [Hin | Hin]; [discriminate |]); exact Hin.
Qed.

(** C5, as amended: when the HEAD response has a code in [300,400) and a
    target that starts with neither ["http://"] nor ["https://"], an empty
    target is stored as it is, and a non-empty one is stored resolved
    against the request URL: a target that starts with ['/'] replaces the
    path on the same scheme and host, any other target is appended to the
    directory of the path.  So base ["https://a.b/x/y"] resolves ["z"] to
    ["https://a.b/x/z"] and ["/q"] to ["https://a.b/q"]. *)
Theorem relative_redirect_resolved (w : World) (b : Bookmark.t)
    (response : Response.t) (target : string) :
  session_head w (Bookmark.url b) = Returned response ->
  300 <= Response.status response < 400 ->
  Response.header response "Location" = Some target ->
  is_absolute target = false ->
  Status.redirect_url (probed w b) =
    Some (if String.eqb target "" then ""
          else
            urllib.scheme (urllib.urlparse (Bookmark.url b)) ++ "://" ++
            urllib.netloc (urllib.urlparse (Bookmark.url b)) ++
            (if Py.startswith target "/" then target
             else directory_of (urllib.path (urllib.urlparse (Bookmark.url b))) ++ target)) /\
  absolute_redirect "https://a.b/x/y" (Some "z") = Some "https://a.b/x/z" /\
  absolute_redirect "https://a.b/x/y" (Some "/q") = Some "https://a.b/q".
Proof.
  intros H Hr Hl Habs. split; [| split; reflexivity].
  destruct (probed_redirect_head w b response H) as (_ & -> & _); [lia |].
  assert (E : in_range 300 400 (Response.status response) = true).
  { unfold in_range. apply andb_true_iff. split; [apply Z.leb_le | apply Z.ltb_lt]; lia. }
  rewrite E, Hl.
  destruct (String.eqb target "") eqn:Ee.
  - apply String.eqb_eq in Ee. subst target. reflexivity.
  - apply String.eqb_neq in Ee.
    rewrite (absolute_redirect_relative _ _ Ee Habs). cbv zeta.
    destruct (Py.startswith target "/"); rewrite !append_assoc; reflexivity.
Qed.

Lemma relative_redirect_resolved_witness :
  Status.redirect_url
    (probed (constant_world (Returned (plain_response 302 [("Location", "z")]))
                            (Raised TimeoutError) true)
            (fresh_bookmark 1 "https://a.b/x/y" "a.b")) = Some "https://a.b/x/z".
Proof.
  apply (relative_redirect_resolved
           (constant_world (Returned (plain_response 302 [("Location", "z")]))
                           (Raised TimeoutError) true)
           (fresh_bookmark 1 "https://a.b/x/y" "a.b")
           (plain_response 302 [("Location", "z")]) "z").
  - reflexivity.
  - simpl. lia.
  - reflexivity.
  - reflexivity.
Defined.

(** C5, as stated, fails at two probes of ["https://a.b/x/y"] that end with
    a code in [300,400) and a target that is not absolute: a HEAD 302 with
    an empty [Location] stores the empty string, not the directory of the
    path; a HEAD 405 followed by a GET 300 with [Location: z] stores ["z"],
    not ["https://a.b/x/z"]. *)
Lemma location_stored_unresolved :
  Status.code
    (probed (constant_world (Returned (plain_response 302 [("Location", "")]))
                            (Raised TimeoutError) true)
            (fresh_bookmark 1 "https://a.b/x/y" "a.b")) = Some 302 /\
  Status.redirect_url
    (probed (constant_world (Returned (plain_response 302 [("Location", "")]))
                            (Raised TimeoutError) true)
            (fresh_bookmark 1 "https://a.b/x/y" "a.b")) = Some "" /\
  Status.code
    (probed (constant_world (Returned (plain_response 405 []))
                            (Returned (plain_response 300 [("Location", "z")])) true)
            (fresh_bookmark 1 "https://a.b/x/y" "a.b")) = Some 300 /\
  Status.redirect
    (probed (constant_world (Returned (plain_response 405 []))
                            (Returned (plain_response 300 [("Location", "z")])) true)
            (fresh_bookmark 1 "https://a.b/x/y" "a.b")) = Some true /\
  Status.redirect_url
    (probed (constant_world (Returned (plain_response 405 []))
                            (Returned (plain_response 300 [("Location", "z")])) true)
            (fresh_bookmark 1 "https://a.b/x/y" "a.b")) = Some "z" /\
  is_absolute "z" = false /\
  Some "z" <> Some "https://a.b/x/z" /\
  Some "" <> Some "https://a.b/x/".
Proof.
  repeat split; try reflexivity; discriminate.
Qed.

Example absolute_path_redirect_resolved :
  Status.redirect_url
    (probed (constant_world (Returned (plain_response 302 [("location", "/q")]))
                            (Raised TimeoutError) true)
            (fresh_bookmark 1 "https://a.b/x/y" "a.b")) = Some "https://a.b/q".
Proof. reflexivity. Qed.

(** ** The confirming GET *)

Lemma probed_get_fallback (w : World) (b : Bookmark.t) (response : Response.t) :
  session_head w (Bookmark.url b) = Returned response ->
  400 <= Response.status response ->
  snd (check_url w b) =
    ([HEAD (Bookmark.url b); GET (Bookmark.url b)] ++
     (if Py.startswith (Bookmark.url b) "https://"
      then [TLS (urllib.netloc (urllib.urlparse (Bookmark.url b))) 443] else []))%list /\
  Status.code (probed w b) =
    Some (match session_get w (Bookmark.url b) with
          | Returned get_response => Response.status get_response
          | Raised _ => Response.status response
          end) /\
  Status.redirect_url (probed w b) =
    match session_get w (Bookmark.url b) with
    | Returned get_response =>
        if in_range 300 400 (Response.status get_response)
        then Response.header get_response "Location" else None
    | Raised _ => None
    end.
Proof.
  intros H Hge. rewrite probed_unfold. unfold check_url, probe_attempt. rewrite H.
  assert (E : (400 <=? Response.status response) = true) by (apply Z.leb_le; lia).
  assert (E' : in_range 300 400 (Response.status response) = false).
  { unfold in_range. apply andb_false_iff. right. apply Z.ltb_ge. lia. }
  rewrite E, E'.
  destruct (session_get w (Bookmark.url b)) as [get_response | e];
    destruct (Py.startswith (Bookmark.url b) "https://"); simpl; auto.
Qed.

(** C6: when the HEAD request returns a code of 400 or more, the probe
    issues exactly one GET; if the GET returns, its status and its redirect
    target become the result, and if it raises, the HEAD result stays.
    HEAD 404 then GET 200 ends with code 200, accessible. *)
Theorem head_rejected_get_confirms (w : World) (b : Bookmark.t) (response : Response.t) :
  session_head w (Bookmark.url b) = Returned response ->
  400 <= Response.status response ->
  filter is_GET (snd (check_url w b)) = [GET (Bookmark.url b)] /\
  (forall get_response,
      session_get w (Bookmark.url b) = Returned get_response ->
      Status.code (probed w b) = Some (Response.status get_response) /\
      Status.redirect_url (probed w b) =
        (if in_range 300 400 (Response.status get_response)
         then Response.header get_response "Location" else None) /\
      (Response.status response = 404 -> Response.status get_response = 200 ->
       Status.code (probed w b) = Some 200 /\ Status.accessible (probed w b) = Some true)) /\
  (forall e,
      session_get w (Bookmark.url b) = Raised e ->
      Status.code (probed w b) = Some (Response.status response) /\
      Status.redirect (probed w b) = Some false /\
      Status.redirect_url (probed w b) = None).
Proof.
  intros H Hge.
  destruct (probed_get_fallback w b response H Hge) as (Hcalls & Hcode & Hurl).
  split; [| split].
  - rewrite Hcalls.
    destruct (Py.startswith (Bookmark.url b) "https://"); reflexivity.
  - intros get_response Hget. rewrite Hget in Hcode, Hurl.
    split; [exact Hcode | split; [exact Hurl |]].
    intros _ H200. rewrite H200 in Hcode. split; [exact Hcode |].
    destruct (check_url_consistent w b) as (c & Hc & Ha & _).
    rewrite Hc in Hcode. inversion Hcode; subst c. exact Ha.
  - intros e Hget. rewrite Hget in Hcode, Hurl.
    split; [exact Hcode | split; [| exact Hurl]].
    destruct (check_url_consistent w b) as (c & Hc & _ & Hr & _).
    rewrite Hc in Hcode. inversion Hcode; subst c. rewrite Hr. f_equal.
    apply andb_false_iff. right. apply Z.ltb_ge. lia.
Qed.

Lemma head_rejected_get_confirms_witness :
  Status.code
    (probed (constant_world (Returned (plain_response 404 []))
                            (Returned (plain_response 200 [])) true)
            (fresh_bookmark 1 "http://a.b/x" "a.b")) = Some 200 /\
  Status.accessible
    (probed (constant_world (Returned (plain_response 404 []))
                            (Returned (plain_response 200 [])) true)
            (fresh_bookmark 1 "http://a.b/x" "a.b")) = Some true.
Proof.
  apply (proj1 (proj2 (head_rejected_get_confirms
           (constant_world (Returned (plain_response 404 []))
                           (Returned (plain_response 200 [])) true)
           (fresh_bookmark 1 "http://a.b/x" "a.b")
           (plain_response 404 [])
           eq_refl ltac:(simpl; lia)))
          (plain_response 200 []));
    reflexivity.
Defined.

(** ** A redirect without a target *)

Lemma final_response_code (w : World) (b : Bookmark.t) (response : Response.t) :
  final_response w (Bookmark.url b) = Some response ->
  Status.code (probed w b) = Some (Response.status response) /\
  (in_range 300 400 (Response.status response) = true ->
   Response.header response "Location" = None ->
   Status.redirect_url (probed w b) = None).
Proof.
  unfold final_response.
  destruct (session_head w (Bookmark.url b)) as [head_response | e] eqn:H;
    [| discriminate].
  destruct (400 <=? Response.status head_response) eqn:E.
  - apply Z.leb_le in E.
    destruct (probed_get_fallback w b head_response H E) as (_ & Hcode & Hurl).
    destruct (session_get w (Bookmark.url b)) as [get_response | e];
      intros Hf; inversion Hf; subst; (split; [exact Hcode |]).
    + intros Hr Hl. rewrite Hurl, Hr. exact Hl.
    + intros _ _. exact Hurl.
  - apply Z.leb_gt in E.
    destruct (probed_redirect_head w b head_response H E) as (Hcode & Hurl & _).
    intros Hf; inversion Hf; subst. split; [exact Hcode |].
    intros Hr Hl. rewrite Hurl, Hr, Hl. reflexivity.
Qed.

Lemma fetch_of_accessible (fw : World) (config : Config.t) (b : Bookmark.t) :
  is_accessible b = true ->
  snd (content_downloader.download_page_content fw b config) =
    [GET (content_downloader.target_url b)] /\
  Content.url_used
    (Bookmark.content (fst (content_downloader.download_page_content fw b config))) =
    Some (content_downloader.target_url b).
Proof.
  unfold is_accessible, content_downloader.download_page_content. intros ->. simpl.
  destruct (content_downloader.fetch_attempt fw config (content_downloader.target_url b))
    as [e | c] eqn:E; simpl; [auto |].
  split; [reflexivity |].
  unfold content_downloader.fetch_attempt in E.
  destruct (session_get fw (content_downloader.target_url b)) as [r | e]; [| discriminate].
  destruct (negb (Response.status r =? 200)).
  - inversion E; reflexivity.
  - destruct (Config.output_dir config); [| discriminate].
    destruct (storage_failure fw _); inversion E; reflexivity.
Qed.

(** C10: when the final code of the probe is in [300,400) and the response
    it comes from has no [Location] header, the status has
    [redirect = true] and [redirect_url = null], and the fetch phase
    requests the original [url]. *)
Theorem redirect_without_location (w fw : World) (config : Config.t)
    (b : Bookmark.t) (response : Response.t) :
  final_response w (Bookmark.url b) = Some response ->
  300 <= Response.status response < 400 ->
  Response.header response "Location" = None ->
  Status.redirect (probed w b) = Some true /\
  Status.redirect_url (probed w b) = None /\
  content_downloader.target_url (fst (check_url w b)) = Bookmark.url b /\
  snd (content_downloader.download_page_content fw (fst (check_url w b)) config) =
    [GET (Bookmark.url b)] /\
  Content.url_used
    (Bookmark.content
       (fst (content_downloader.download_page_content fw (fst (check_url w b)) config))) =
    Some (Bookmark.url b).
Proof.
  intros Hf Hr Hl.
  assert (Er : in_range 300 400 (Response.status response) = true).
  { unfold in_range. apply andb_true_iff. split; [apply Z.leb_le | apply Z.ltb_lt]; lia. }
  destruct (final_response_code w b response Hf) as (Hcode & Hurl).
  specialize (Hurl Er Hl).
  destruct (check_url_consistent w b) as (c & Hc & Ha & Hred & _).
  rewrite Hc in Hcode. inversion Hcode; subst c.
  assert (Htarget : content_downloader.target_url (fst (check_url w b)) = Bookmark.url b).
  { unfold content_downloader.target_url.
    change (Bookmark.status (fst (check_url w b))) with (probed w b).
    rewrite Hurl. apply check_url_keeps_identity. }
  assert (Hacc : is_accessible (fst (check_url w b)) = true).
  { unfold is_accessible.
    change (Bookmark.status (fst (check_url w b))) with (probed w b).
    rewrite Ha.
    replace (200 <=? Response.status response) with true
      by (symmetry; apply Z.leb_le; lia).
    replace (Response.status response <? 400) with true
      by (symmetry; apply Z.ltb_lt; lia).
    reflexivity. }
  destruct (fetch_of_accessible fw config (fst (check_url w b)) Hacc) as (Hlog & Hused).
  rewrite Htarget in Hlog, Hused.
  repeat split; try assumption.
  rewrite Hred. f_equal. exact Er.
Qed.

Lemma redirect_without_location_witness :
  Status.redirect
    (probed (constant_world (Returned (plain_response 302 [])) (Raised TimeoutError) true)
            (fresh_bookmark 1 "http://a.b/x" "a.b")) = Some true /\
  Status.redirect_url
    (probed (constant_world (Returned (plain_response 302 [])) (Raised TimeoutError) true)
            (fresh_bookmark 1 "http://a.b/x" "a.b")) = None /\
  snd (content_downloader.download_page_content
         (constant_world (Raised TimeoutError) (Returned (plain_response 200 [])) true)
         (fst (check_url
                 (constant_world (Returned (plain_response 302 [])) (Raised TimeoutError) true)
                 (fresh_bookmark 1 "http://a.b/x" "a.b")))
         (Config.mk None None None (Some "output"))) = [GET "http://a.b/x"].
Proof.
  destruct (redirect_without_location
              (constant_world (Returned (plain_response 302 [])) (Raised TimeoutError) true)
              (constant_world (Raised TimeoutError) (Returned (plain_response 200 [])) true)
              (Config.mk None None None (Some "output"))
              (fresh_bookmark 1 "http://a.b/x" "a.b")
              (plain_response 302 []))
    as (H1 & H2 & _ & H4 & _).
  - reflexivity.
  - simpl. lia.
  - reflexivity.
  - exact (conj H1 (conj H2 H4)).
Defined.

(** ** The fetch precondition *)

Lemma non_downloaded_spec (w : World) (bookmarks : list Bookmark.t) (b' : Bookmark.t) :
  In b' (content_downloader.non_downloaded w bookmarks) <->
  exists b, In b bookmarks /\ is_accessible b = false /\
            b' = Bookmark.set_content b (content_downloader.inaccessible_content w).
Proof.
  unfold content_downloader.non_downloaded. rewrite in_map_iff. split.
  - intros (b & <- & Hin). apply filter_In in Hin. destruct Hin as (Hin & Hacc).
    exists b. repeat split; [exact Hin |].
    unfold is_accessible. apply negb_true_iff. exact Hacc.
  - intros (b & Hin & Hacc & ->). exists b. split; [reflexivity |].
    apply filter_In. split; [exact Hin |].
    apply negb_true_iff. exact Hacc.
Qed.

(** C3: a bookmark whose status is not accessible causes no request in the
    fetch phase and leaves it with content exactly
    [{downloaded: false, error: "inaccessible_url", download_date: now}];
    every request of the phase is made for an accessible bookmark. *)
Theorem inaccessible_not_fetched (w : World) (as_completed : CompletionOrder)
    (bookmarks : list Bookmark.t) (config : Config.t) (b : Bookmark.t) :
  fair as_completed ->
  In b bookmarks ->
  is_accessible b = false ->
  content_downloader.download_page_content w b config = (b, []) /\
  (forall r, ~ In (b, r)
     (snd (content_downloader.download_content_async w as_completed bookmarks config))) /\
  In (Bookmark.set_content b
        (Content.mk false None None None (Some (now_isoformat w))
                    (Some "inaccessible_url") None))
     (fst (content_downloader.download_content_async w as_completed bookmarks config)) /\
  (forall b',
      In b' (fst (content_downloader.download_content_async w as_completed bookmarks config)) ->
      is_accessible b' = false ->
      Bookmark.content b' =
      Content.mk false None None None (Some (now_isoformat w))
                 (Some "inaccessible_url") None) /\
  (forall b' r,
      In (b', r)
         (snd (content_downloader.download_content_async w as_completed bookmarks config)) ->
      is_accessible b' = true).
Proof.
  intros Hfair Hin Hacc.
  pose proof (download_content_async_results w config as_completed bookmarks Hfair) as Hres.
  split; [| split; [| split; [| split]]].
  - unfold content_downloader.download_page_content.
    unfold is_accessible in Hacc. rewrite Hacc. reflexivity.
  - intros r Hr. apply download_content_async_log in Hr.
    destruct Hr as ((_ & Ht) & _). congruence.
  - eapply Permutation_in; [apply Permutation_sym, Hres |].
    apply in_or_app. right. apply non_downloaded_spec.
    exists b. auto.
  - intros b' Hb' Hacc'.
    apply (Permutation_in _ Hres) in Hb'. apply in_app_or in Hb'.
    destruct Hb' as [Hb' | Hb'].
    + apply in_map_iff in Hb'. destruct Hb' as (b0 & <- & Hb0).
      apply filter_In in Hb0. destruct Hb0 as (_ & Hb0).
      unfold is_accessible in Hacc'.
      rewrite (proj1 (download_page_content_keeps_status w config b0)) in Hacc'.
      unfold is_accessible in Hb0. congruence.
    + apply non_downloaded_spec in Hb'. destruct Hb' as (b0 & _ & _ & ->). reflexivity.
  - intros b' r Hr. apply download_content_async_log in Hr.
    destruct Hr as ((_ & Ht) & _). exact Ht.
Qed.

Lemma inaccessible_not_fetched_witness :
  In (Bookmark.set_content (checked_bookmark 2 "http://a.b/gone" "a.b" 404)
        (Content.mk false None None None (Some "2024-05-01T12:00:00")
                    (Some "inaccessible_url") None))
     (fst (content_downloader.download_content_async
             (constant_world (Raised TimeoutError) (Returned (plain_response 200 [])) true)
             (@rev Bookmark.t)
             [checked_bookmark 1 "http://a.b/x" "a.b" 200;
              checked_bookmark 2 "http://a.b/gone" "a.b" 404]
             (Config.mk None None None (Some "output")))).
Proof.
  apply (inaccessible_not_fetched
           (constant_world (Raised TimeoutError) (Returned (plain_response 200 [])) true)
           (@rev Bookmark.t)
           [checked_bookmark 1 "http://a.b/x" "a.b" 200;
            checked_bookmark 2 "http://a.b/gone" "a.b" 404]
           (Config.mk None None None (Some "output"))
           (checked_bookmark 2 "http://a.b/gone" "a.b" 404)).
  - exact rev_fair.
  - simpl. right. left. reflexivity.
  - reflexivity.
Defined.

(** ** Order of the output *)

(** With pairwise distinct ids, the output of the probe phase is the same
    for any two orders of completion. *)
Lemma check_urls_async_deterministic (w : World) (order1 order2 : CompletionOrder)
    (bookmarks : list Bookmark.t) (config : Config.t) :
  fair order1 -> fair order2 ->
  NoDup (map Bookmark.id bookmarks) ->
  fst (url_checker.check_urls_async w order1 bookmarks config) =
  fst (url_checker.check_urls_async w order2 bookmarks config).
Proof.
  intros H1 H2 Hnd.
  pose proof (check_urls_async_results w config order1 bookmarks H1) as P1.
  pose proof (check_urls_async_results w config order2 bookmarks H2) as P2.
  apply sorted_by_id_unique.
  - apply sort_by_id_sorted.
  - apply sort_by_id_sorted.
  - apply (Permutation_NoDup (l := map Bookmark.id bookmarks)); [| exact Hnd].
    apply Permutation_sym.
    eapply perm_trans; [apply Permutation_map, P1 |].
    rewrite map_map.
    erewrite map_ext; [apply Permutation_refl |].
    intros a. apply check_url_keeps_identity.
  - eapply perm_trans; [exact P1 | apply Permutation_sym, P2].
Qed.

(** C8: whatever the order in which the tasks complete, each phase returns
    its bookmarks sorted by ascending [id], and returns the results of all
    its bookmarks. *)
Theorem phases_sorted_by_id (pw fw : World) (as_completed : CompletionOrder)
    (bookmarks : list Bookmark.t) (config : Config.t) :
  fair as_completed ->
  StronglySorted (fun x y => Bookmark.id x <= Bookmark.id y)
    (fst (url_checker.check_urls_async pw as_completed bookmarks config)) /\
  StronglySorted (fun x y => Bookmark.id x <= Bookmark.id y)
    (fst (content_downloader.download_content_async fw as_completed bookmarks config)) /\
  Permutation
    (map Bookmark.id (fst (url_checker.check_urls_async pw as_completed bookmarks config)))
    (map Bookmark.id bookmarks) /\
  List.length (fst (content_downloader.download_content_async fw as_completed bookmarks config))
  = List.length bookmarks.
Proof.
  intros Hfair. split; [| split; [| split]].
  - apply sort_by_id_sorted.
  - apply sort_by_id_sorted.
  - eapply perm_trans.
    + apply Permutation_map, check_urls_async_results, Hfair.
    + rewrite map_map.
      erewrite map_ext; [apply Permutation_refl |].
      intros a. apply check_url_keeps_identity.
  - rewrite (Permutation_length (download_content_async_results fw config as_completed bookmarks Hfair)).
    unfold content_downloader.non_downloaded.
    rewrite length_app, !length_map.
    change (fun bookmark => negb (get_flag (Status.accessible (Bookmark.status bookmark))))
      with (fun bookmark => negb (is_accessible bookmark)).
    clear. induction bookmarks as [| b l IH]; simpl; [reflexivity |].
    destruct (is_accessible b); simpl; lia.
Qed.

Lemma phases_sorted_by_id_witness :
  StronglySorted (fun x y => Bookmark.id x <= Bookmark.id y)
    (fst (url_checker.check_urls_async
            (constant_world (Returned (plain_response 200 [])) (Raised TimeoutError) true)
            (@rev Bookmark.t)
            [fresh_bookmark 3 "http://a.b/x" "a.b"; fresh_bookmark 1 "http://c.d/" "c.d";
             fresh_bookmark 2 "http://a.b/y" "a.b"]
            (Config.mk None None None None))).
Proof.
  apply (phases_sorted_by_id
           (constant_world (Returned (plain_response 200 [])) (Raised TimeoutError) true)
           (constant_world (Raised TimeoutError) (Returned (plain_response 200 [])) true)
           (@rev Bookmark.t)
           [fresh_bookmark 3 "http://a.b/x" "a.b"; fresh_bookmark 1 "http://c.d/" "c.d";
            fresh_bookmark 2 "http://a.b/y" "a.b"]
           (Config.mk None None None None)).
  exact rev_fair.
Defined.

Example check_urls_async_order :
  map Bookmark.id
    (fst (url_checker.check_urls_async
            (constant_world (Returned (plain_response 200 [])) (Raised TimeoutError) true)
            (@rev Bookmark.t)
            [fresh_bookmark 3 "http://a.b/x" "a.b"; fresh_bookmark 1 "http://c.d/" "c.d";
             fresh_bookmark 2 "http://a.b/y" "a.b"]
            (Config.mk None None None None))) = [1; 2; 3].
Proof. reflexivity. Qed.

(** ** The stored file name *)

Lemma take_all (n : nat) (s : string) :
  (String.length s <= n)%nat -> Py.take n s = s.
Proof.
  revert s. induction n as [| n IH]; intros [| c s] H; simpl in *;
    try reflexivity; [lia |].
  rewrite IH by lia. reflexivity.
Qed.

Lemma length_take (n : nat) (s : string) : (String.length (Py.take n s) <= n)%nat.
Proof.
  revert s. induction n as [| n IH]; intros [| c s]; simpl; try lia.
  specialize (IH s). lia.
Qed.

Lemma file_stem_spec (url : string) :
  content_downloader.file_stem url =
  if String.eqb (Py.strip "/" (urllib.path (urllib.urlparse url))) ""
  then "index"
  else Py.take 100 (Py.replace "/" "_" (Py.strip "/" (urllib.path (urllib.urlparse url)))).
Proof.
  unfold content_downloader.file_stem.
  destruct (String.eqb (Py.strip "/" (urllib.path (urllib.urlparse url))) "");
    [reflexivity |].
  destruct (Nat.ltb 100 _) eqn:E; [reflexivity |].
  apply Nat.ltb_ge in E. rewrite take_all by exact E. reflexivity.
Qed.

Lemma download_page_content_success (w : World) (config : Config.t) (b : Bookmark.t) :
  is_accessible b = true ->
  Content.downloaded
    (Bookmark.content (fst (content_downloader.download_page_content w b config))) = true ->
  exists response output_dir,
    session_get w (content_downloader.target_url b) = Returned response /\
    Response.status response = 200 /\
    Config.output_dir config = Some output_dir /\
    Content.path
      (Bookmark.content (fst (content_downloader.download_page_content w b config))) =
    Some (content_downloader.os_path_join
            (content_downloader.os_path_join
               (content_downloader.os_path_join output_dir "data/content")
               (Py.replace ":" "_"
                  (urllib.netloc (urllib.urlparse (content_downloader.target_url b)))))
            (content_downloader.filename w (content_downloader.target_url b)
               (content_downloader.content_type_of response))).
Proof.
  unfold is_accessible, content_downloader.download_page_content. intros ->. simpl.
  unfold content_downloader.fetch_attempt.
  destruct (session_get w (content_downloader.target_url b)) as [response | e];
    [| discriminate].
  destruct (Response.status response =? 200) eqn:E200; simpl; [| discriminate].
  apply Z.eqb_eq in E200.
  destruct (Config.output_dir config) as [output_dir |]; [| discriminate].
  destruct (storage_failure w _); [discriminate |].
  intros _. exists response, output_dir. auto.
Qed.

(** C7, as amended: after a successful fetch the stored file is named
    [<stem>_<hash10>_<YYYYMMDD><ext>], where the stem is the path of the
    fetched URL without its leading and trailing ['/'], with every ['/']
    replaced by ['_'] and cut to 100 characters (["index"] when nothing is
    left), the hash is the first ten characters of the digest of the
    fetched URL, and the extension is [.json] when the content type
    contains ["json"], else [.xml] when it contains ["xml"], else [.txt]
    when it contains ["text/plain"], else [.html]. *)
Theorem stored_filename (w : World) (config : Config.t) (b : Bookmark.t) :
  is_accessible b = true ->
  Content.downloaded
    (Bookmark.content (fst (content_downloader.download_page_content w b config))) = true ->
  exists response output_dir stem ext,
    session_get w (content_downloader.target_url b) = Returned response /\
    Response.status response = 200 /\
    Content.path
      (Bookmark.content (fst (content_downloader.download_page_content w b config))) =
    Some (content_downloader.os_path_join
            (content_downloader.os_path_join
               (content_downloader.os_path_join output_dir "data/content")
               (Py.replace ":" "_"
                  (urllib.netloc (urllib.urlparse (content_downloader.target_url b)))))
            (stem ++ "_" ++ Py.take 10 (md5_hexdigest w (content_downloader.target_url b))
                  ++ "_" ++ now_yyyymmdd w ++ ext)) /\
    stem =
      (if String.eqb
            (Py.strip "/" (urllib.path (urllib.urlparse (content_downloader.target_url b)))) ""
       then "index"
       else Py.take 100
              (Py.replace "/" "_"
                 (Py.strip "/"
                    (urllib.path (urllib.urlparse (content_downloader.target_url b)))))) /\
    (String.length stem <= 100)%nat /\
    ext =
      (if Py.contains (content_downloader.content_type_of response) "json" then ".json"
       else if Py.contains (content_downloader.content_type_of response) "xml" then ".xml"
       else if Py.contains (content_downloader.content_type_of response) "text/plain" then ".txt"
       else ".html") /\
    content_downloader.file_extension "application/json; charset=utf-8" = ".json" /\
    content_downloader.file_extension "application/octet-stream" = ".html".
Proof.
  intros Hacc Hd.
  destruct (download_page_content_success w config b Hacc Hd)
    as (response & output_dir & Hget & H200 & _ & Hpath).
  exists response, output_dir,
    (content_downloader.file_stem (content_downloader.target_url b)),
    (content_downloader.file_extension (content_downloader.content_type_of response)).
  repeat split; try assumption.
  - apply file_stem_spec.
  - rewrite file_stem_spec.
    destruct (String.eqb _ ""); [simpl; lia | apply length_take].
Qed.

Lemma stored_filename_witness :
  exists response output_dir stem ext,
    session_get json_world
      (content_downloader.target_url (checked_bookmark 1 "https://a.b/x/y" "a.b" 200)) =
      Returned response /\
    Response.status response = 200 /\
    Content.path
      (Bookmark.content
         (fst (content_downloader.download_page_content json_world
                 (checked_bookmark 1 "https://a.b/x/y" "a.b" 200) output_config))) =
    Some (content_downloader.os_path_join
            (content_downloader.os_path_join
               (content_downloader.os_path_join output_dir "data/content")
               (Py.replace ":" "_"
                  (urllib.netloc
                     (urllib.urlparse
                        (content_downloader.target_url
                           (checked_bookmark 1 "https://a.b/x/y" "a.b" 200))))))
            (stem ++ "_" ++
             Py.take 10
               (md5_hexdigest json_world
                  (content_downloader.target_url
                     (checked_bookmark 1 "https://a.b/x/y" "a.b" 200)))
             ++ "_" ++ now_yyyymmdd json_world ++ ext)) /\
    stem =
      (if String.eqb
            (Py.strip "/"
               (urllib.path
                  (urllib.urlparse
                     (content_downloader.target_url
                        (checked_bookmark 1 "https://a.b/x/y" "a.b" 200))))) ""
       then "index"
       else Py.take 100
              (Py.replace "/" "_"
                 (Py.strip "/"
                    (urllib.path
                       (urllib.urlparse
                          (content_downloader.target_url
                             (checked_bookmark 1 "https://a.b/x/y" "a.b" 200))))))) /\
    (String.length stem <= 100)%nat /\
    ext =
      (if Py.contains (content_downloader.content_type_of response) "json" then ".json"
       else if Py.contains (content_downloader.content_type_of response) "xml" then ".xml"
       else if Py.contains (content_downloader.content_type_of response) "text/plain" then ".txt"
       else ".html") /\
    content_downloader.file_extension "application/json; charset=utf-8" = ".json" /\
    content_downloader.file_extension "application/octet-stream" = ".html".
Proof.
  apply (stored_filename json_world output_config
           (checked_bookmark 1 "https://a.b/x/y" "a.b" 200));
    reflexivity.
Defined.

Example stored_path_example :
  Content.path
    (Bookmark.content
       (fst (content_downloader.download_page_content json_world
               (checked_bookmark 1 "https://a.b/x/y" "a.b" 200) output_config))) =
  Some "output/data/content/a.b/x_y_0123456789_20240501.json".
Proof. reflexivity. Qed.

(** C7, as stated, fails: the characters of the path that are not
    alphanumeric are kept, unless they are ['/']. *)
Lemma file_stem_keeps_punctuation :
  content_downloader.file_stem "https://a.b/x-y.z" = "x-y.z" /\
  exists c, In c (Py.chars (content_downloader.file_stem "https://a.b/x-y.z")) /\
            Py.isalnum c = false /\ c <> "_"%char.
Proof.
  split; [reflexivity |].
  exists "-"%char. repeat split.
  - simpl. auto.
  - discriminate.
Qed.

(** ** Start delays *)

(** C9, as amended: in the probe phase every bookmark gets one task, whose
    delay is its rank among the bookmarks of its domain times [d/2]; in the
    fetch phase every accessible bookmark (and no other) gets one task,
    whose delay is its rank among the accessible bookmarks of its domain
    times [d].  Two bookmarks of one domain, of ranks 0 and 1, probed with
    [d = 1], start at 0 and at 1/2. *)
Theorem task_start_delays (config : Config.t) (bookmarks : list Bookmark.t) :
  Permutation
    (url_checker.tasks config bookmarks)
    (map (fun '(k, b) =>
            (b, (nat_to_Q (rank_within_domain bookmarks k b)
                 * url_checker.delay config / 2)%Q))
         (enumerate bookmarks)) /\
  Permutation
    (content_downloader.tasks config bookmarks)
    (map (fun '(k, b) =>
            (b, (nat_to_Q (rank_within_domain (filter is_accessible bookmarks) k b)
                 * content_downloader.delay config)%Q))
         (enumerate (filter is_accessible bookmarks))) /\
  (forall (rank : nat) (d : Q), nat_to_Q rank * d / 2 == nat_to_Q rank * (d / 2))%Q /\
  Forall2 Qeq
    (map snd (url_checker.tasks (Config.mk None (Some 1%Q) None None)
                [fresh_bookmark 1 "http://x.com/a" "x.com";
                 fresh_bookmark 2 "http://x.com/b" "x.com"]))
    [0%Q; (1 # 2)%Q].
Proof.
  split; [| split; [| split]].
  - exact (probe_tasks_ranked config bookmarks).
  - exact (fetch_tasks_ranked config bookmarks).
  - intros rank d. unfold Qdiv. ring.
  - simpl. repeat constructor.
Qed.

(** C9, as stated, fails in the fetch phase: an inaccessible bookmark gets
    no task and does not count in the rank of the bookmarks after it. *)
Lemma fetch_rank_skips_inaccessible :
  content_downloader.tasks (Config.mk None (Some 2%Q) None None)
    [checked_bookmark 1 "http://x.com/a" "x.com" 404;
     checked_bookmark 2 "http://x.com/b" "x.com" 200]
  = [(checked_bookmark 2 "http://x.com/b" "x.com" 200, (nat_to_Q 0 * 2)%Q)] /\
  rank_within_domain
    [checked_bookmark 1 "http://x.com/a" "x.com" 404;
     checked_bookmark 2 "http://x.com/b" "x.com" 200]
    1 (checked_bookmark 2 "http://x.com/b" "x.com" 200) = 1%nat /\
  ~ (nat_to_Q 0 * 2 == nat_to_Q 1 * 2)%Q.
Proof.
  split; [reflexivity | split; [reflexivity |]].
  intros H. discriminate H.
Qed.

(** * Further properties of the probe *)

Lemma in_range_spec (lo hi x : Z) : in_range lo hi x = true <-> lo <= x < hi.
Proof.
  unfold in_range. rewrite andb_true_iff, Z.leb_le, Z.ltb_lt. reflexivity.
Qed.

(** X1: A redirect target is stored only with a code in [300,400): whenever
    [redirect_url] is set after the probe, [redirect] and [accessible] are
    true. *)
Theorem redirect_url_only_for_redirects (w : World) (b : Bookmark.t) :
  Status.redirect_url (probed w b) <> None ->
  exists c,
    Status.code (probed w b) = Some c /\ 300 <= c < 400 /\
    Status.redirect (probed w b) = Some true /\
    Status.accessible (probed w b) = Some true.
Proof.
  intros Hset.
  assert (Hc : exists c, Status.code (probed w b) = Some c /\ in_range 300 400 c = true).
  { destruct (session_head w (Bookmark.url b)) as [response | e] eqn:H.
    - destruct (Z_lt_ge_dec (Response.status response) 400) as [Hlt | Hge].
      + destruct (probed_redirect_head w b response H Hlt) as (Hcode & Hurl & _).
        exists (Response.status response). split; [exact Hcode |].
        destruct (in_range 300 400 (Response.status response)); [reflexivity |].
        contradiction.
      + destruct (probed_get_fallback w b response H) as (_ & Hcode & Hurl); [lia |].
        destruct (session_get w (Bookmark.url b)) as [get_response | e];
          [| contradiction].
        exists (Response.status get_response). split; [exact Hcode |].
        destruct (in_range 300 400 (Response.status get_response)); [reflexivity |].
        contradiction.
    - rewrite (probed_code_raised w b e H) in Hset. simpl in Hset. contradiction. }
  destruct Hc as (c & Hcode & Hr). exists c.
  destruct (check_url_consistent w b) as (c' & Hc' & Ha & Hred & _).
  rewrite Hc' in Hcode. inversion Hcode; subst c'.
  apply in_range_spec in Hr.
  repeat split; try lia; try assumption.
  - rewrite Hred. f_equal. apply in_range_spec. lia.
  - rewrite Ha. f_equal. apply in_range_spec. lia.
Qed.

Lemma redirect_url_only_for_redirects_witness :
  exists c,
    Status.code
      (probed (constant_world (Returned (plain_response 302 [("Location", "/q")]))
                              (Raised TimeoutError) true)
              (fresh_bookmark 1 "https://a.b/x/y" "a.b")) = Some c /\
    300 <= c < 400 /\
    Status.redirect
      (probed (constant_world (Returned (plain_response 302 [("Location", "/q")]))
                              (Raised TimeoutError) true)
              (fresh_bookmark 1 "https://a.b/x/y" "a.b")) = Some true /\
    Status.accessible
      (probed (constant_world (Returned (plain_response 302 [("Location", "/q")]))
                              (Raised TimeoutError) true)
              (fresh_bookmark 1 "https://a.b/x/y" "a.b")) = Some true.
Proof.
  apply redirect_url_only_for_redirects. discriminate.
Defined.

(** X2: A [Location] that starts with ["http://"] or ["https://"], or that is
    empty, is stored as it is received. *)
Theorem absolute_location_kept (w : World) (b : Bookmark.t)
    (response : Response.t) (target : string) :
  session_head w (Bookmark.url b) = Returned response ->
  300 <= Response.status response < 400 ->
  Response.header response "Location" = Some target ->
  is_absolute target = true \/ target = "" ->
  Status.redirect_url (probed w b) = Some target.
Proof.
  intros H Hr Hl Ht.
  destruct (probed_redirect_head w b response H) as (_ & -> & _); [lia |].
  rewrite (proj2 (in_range_spec 300 400 _) Hr), Hl.
  unfold absolute_redirect.
  destruct Ht as [Ht | ->]; [rewrite Ht, andb_false_r |]; reflexivity.
Qed.

Lemma absolute_location_kept_witness :
  Status.redirect_url
    (probed (constant_world (Returned (plain_response 301 [("Location", "http://c.d/new")]))
                            (Raised TimeoutError) true)
            (fresh_bookmark 1 "https://a.b/x/y" "a.b")) = Some "http://c.d/new".
Proof.
  apply (absolute_location_kept
           (constant_world (Returned (plain_response 301 [("Location", "http://c.d/new")]))
                           (Raised TimeoutError) true)
           (fresh_bookmark 1 "https://a.b/x/y" "a.b")
           (plain_response 301 [("Location", "http://c.d/new")])).
  - reflexivity.
  - simpl. lia.
  - reflexivity.
  - left. reflexivity.
Defined.

Lemma http_prefix_scheme (url : string) :
  Py.startswith url "http://" = true ->
  urllib.scheme (urllib.urlparse url) = "http".
Proof.
  intros H. apply prefix_app in H. destruct H as (rest & ->).
  unfold urllib.urlparse. simpl.
  destruct (urllib.split_netloc _). reflexivity.
Qed.

Lemma startswith_app (p rest : string) : Py.startswith (p ++ rest) p = true.
Proof.
  unfold Py.startswith. induction p as [| a p IH]; simpl.
  - destruct rest; reflexivity.
  - destruct (ascii_dec a a) as [_ | Hn]; [exact IH | contradiction].
Qed.

Lemma is_absolute_http (rest : string) : is_absolute ("http" ++ "://" ++ rest) = true.
Proof.
  unfold is_absolute.
  change ("http" ++ "://" ++ rest) with ("http://" ++ rest).
  rewrite startswith_app. reflexivity.
Qed.

Lemma is_absolute_https (rest : string) : is_absolute ("https" ++ "://" ++ rest) = true.
Proof.
  unfold is_absolute.
  change ("https" ++ "://" ++ rest) with ("https://" ++ rest).
  rewrite startswith_app. apply orb_true_r.
Qed.

(** X3: For a bookmark whose URL starts with ["http://"] or ["https://"], a
    non-empty redirect target taken from the HEAD response is stored in
    absolute form, whether it was received absolute or relative. *)
Theorem head_redirect_url_absolute (w : World) (b : Bookmark.t)
    (response : Response.t) (target : string) :
  is_absolute (Bookmark.url b) = true ->
  session_head w (Bookmark.url b) = Returned response ->
  Response.status response < 400 ->
  Status.redirect_url (probed w b) = Some target ->
  target <> "" ->
  is_absolute target = true.
Proof.
  intros Habs H Hlt Hurl Hne.
  destruct (probed_redirect_head w b response H Hlt) as (_ & E & _).
  rewrite E in Hurl.
  destruct (in_range 300 400 (Response.status response)); [| discriminate].
  destruct (Response.header response "Location") as [loc |]; [| discriminate].
  destruct (is_absolute loc) eqn:Eloc.
  - unfold absolute_redirect in Hurl. rewrite Eloc, andb_false_r in Hurl.
    inversion Hurl; subst. exact Eloc.
  - destruct (String.eqb loc "") eqn:Ee.
    + apply String.eqb_eq in Ee. subst loc. simpl in Hurl.
      inversion Hurl. congruence.
    + apply String.eqb_neq in Ee.
      rewrite (absolute_redirect_relative _ _ Ee Eloc) in Hurl.
      cbv zeta in Hurl. inversion Hurl; subst target.
      unfold is_absolute in Habs. apply orb_true_iff in Habs.
      destruct Habs as [Hh | Hh].
      * rewrite (http_prefix_scheme _ Hh).
        destruct (Py.startswith loc "/");
          rewrite append_assoc; apply is_absolute_http.
      * rewrite (https_prefix_scheme _ Hh).
        destruct (Py.startswith loc "/");
          rewrite append_assoc; apply is_absolute_https.
Qed.

Lemma head_redirect_url_absolute_witness :
  is_absolute "https://a.b/x/z" = true.
Proof.
  apply (head_redirect_url_absolute
           (constant_world (Returned (plain_response 302 [("Location", "z")]))
                           (Raised TimeoutError) true)
           (fresh_bookmark 1 "https://a.b/x/y" "a.b")
           (plain_response 302 [("Location", "z")]) "https://a.b/x/z").
  - reflexivity.
  - reflexivity.
  - simpl. lia.
  - reflexivity.
  - discriminate.
Defined.

(** X4: When the HEAD request raises, the probe makes no other request, not
    even when the exception carries a status of 400 or more, and stores no
    redirect target and no TLS verdict; unless the exception carries a
    status, the bookmark is neither accessible nor a redirect. *)
Theorem raising_head_ends_probe (w : World) (b : Bookmark.t) (e : Exn) :
  session_head w (Bookmark.url b) = Raised e ->
  snd (check_url w b) = [HEAD (Bookmark.url b)] /\
  Status.redirect_url (probed w b) = None /\
  Status.ssl_valid (probed w b) = None /\
  ((forall status msg, e <> ClientResponseError status msg) ->
   Status.accessible (probed w b) = Some false /\
   Status.redirect (probed w b) = Some false).
Proof.
  intros H. split; [| split; [| split]].
  - unfold check_url, probe_attempt. rewrite H. reflexivity.
  - rewrite (probed_code_raised w b e H). reflexivity.
  - rewrite (probed_code_raised w b e H). reflexivity.
  - intros Hne. rewrite (probed_code_raised w b e H). simpl.
    destruct e; try (split; reflexivity).
    exfalso. eapply Hne. reflexivity.
Qed.

Lemma raising_head_ends_probe_witness :
  snd (check_url
         (constant_world (Raised (ClientResponseError 503 "unavailable"))
                         (Returned (plain_response 200 [])) true)
         (fresh_bookmark 1 "https://a.b/x" "a.b")) = [HEAD "https://a.b/x"].
Proof.
  apply (raising_head_ends_probe
           (constant_world (Raised (ClientResponseError 503 "unavailable"))
                           (Returned (plain_response 200 [])) true)
           (fresh_bookmark 1 "https://a.b/x" "a.b")
           (ClientResponseError 503 "unavailable")).
  reflexivity.
Defined.

(** X5: The requests of a probe: one HEAD first; a GET exactly when the HEAD
    returned a code of 400 or more; a TLS handshake exactly when the URL
    starts with ["https://"] and the HEAD returned, and then with port 443
    of the network location of the URL (its port included). *)
Theorem probe_requests (w : World) (b : Bookmark.t) :
  hd_error (snd (check_url w b)) = Some (HEAD (Bookmark.url b)) /\
  (List.length (snd (check_url w b)) <= 3)%nat /\
  (forall u, In (GET u) (snd (check_url w b)) <->
             u = Bookmark.url b /\
             exists response, session_head w (Bookmark.url b) = Returned response /\
                              400 <= Response.status response) /\
  (forall host port, In (TLS host port) (snd (check_url w b)) <->
             host = urllib.netloc (urllib.urlparse (Bookmark.url b)) /\ port = 443 /\
             Py.startswith (Bookmark.url b) "https://" = true /\
             exists response, session_head w (Bookmark.url b) = Returned response).
Proof.
  destruct (session_head w (Bookmark.url b)) as [response | e] eqn:H.
  - destruct (Z_lt_ge_dec (Response.status response) 400) as [Hlt | Hge].
    + assert (E : (400 <=? Response.status response) = false) by (apply Z.leb_gt; lia).
      unfold check_url, probe_attempt. rewrite H, E.
      destruct (Py.startswith (Bookmark.url b) "https://") eqn:Es; simpl;
        (split; [reflexivity | split; [lia | split]]).
      * intros u. split.
        -- intros [Hin | [Hin | []]]; discriminate.
        -- intros (_ & r & Hr & Hge). inversion Hr; subst. lia.
      * intros host port. split.
        -- intros [Hin | [Hin | []]]; [discriminate |]. inversion Hin; subst.
           repeat split. eauto.
        -- intros (-> & -> & _). right. left. reflexivity.
      * intros u. split.
        -- intros [Hin | []]; discriminate.
        -- intros (_ & r & Hr & Hge). inversion Hr; subst. lia.
      * intros host port. split.
        -- intros [Hin | []]; discriminate.
        -- intros (_ & _ & Hf & _). discriminate.
    + destruct (probed_get_fallback w b response H) as (Hcalls & _); [lia |].
      rewrite Hcalls.
      destruct (Py.startswith (Bookmark.url b) "https://") eqn:Es; simpl;
        (split; [reflexivity | split; [lia | split]]).
      * intros u. split.
        -- intros [Hin | [Hin | [Hin | []]]]; try discriminate.
           inversion Hin; subst. split; [reflexivity |]. exists response. split; [reflexivity | lia].
        -- intros (-> & _). right. left. reflexivity.
      * intros host port. split.
        -- intros [Hin | [Hin | [Hin | []]]]; try discriminate.
           inversion Hin; subst. repeat split. eauto.
        -- intros (-> & -> & _). right. right. left. reflexivity.
      * intros u. split.
        -- intros [Hin | [Hin | []]]; try discriminate.
           inversion Hin; subst. split; [reflexivity |]. exists response. split; [reflexivity | lia].
        -- intros (-> & _). right. left. reflexivity.
      * intros host port. split.
        -- intros [Hin | [Hin | []]]; discriminate.
        -- intros (_ & _ & Hf & _). discriminate.
  - unfold check_url, probe_attempt. rewrite H. simpl.
    split; [reflexivity | split; [lia | split]].
    + intros u. split.
      * intros [Hin | []]. discriminate.
      * intros (_ & r & Hr & _). discriminate.
    + intros host port. split.
      * intros [Hin | []]. discriminate.
      * intros (_ & _ & _ & r & Hr). discriminate.
Qed.

(** * Further properties of the batches *)

Lemma increasing_ids_sorted (l : list Bookmark.t) :
  increasing_ids l -> sorted_by_id l /\ NoDup (map Bookmark.id l).
Proof.
  unfold increasing_ids, sorted_by_id.
  induction 1 as [| x l Hs [IHs IHn] Hx]; simpl.
  - split; constructor.
  - split.
    + constructor; [exact IHs |].
      eapply Forall_impl; [| exact Hx]. simpl. intros; lia.
    + constructor; [| exact IHn].
      intros Hin. apply in_map_iff in Hin. destruct Hin as (y & Ey & Hy).
      rewrite Forall_forall in Hx. specialize (Hx y Hy). lia.
Qed.

Lemma increasing_ids_map (f : Bookmark.t -> Bookmark.t) (l : list Bookmark.t) :
  (forall b, Bookmark.id (f b) = Bookmark.id b) ->
  increasing_ids l -> increasing_ids (map f l).
Proof.
  intros Hid. unfold increasing_ids.
  induction 1 as [| x l Hs IH Hx]; simpl; constructor; [exact IH |].
  apply Forall_map. eapply Forall_impl; [| exact Hx].
  simpl. intros y Hy. rewrite !Hid. exact Hy.
Qed.

(** A sorted rearrangement of a list with increasing ids is that list. *)
Lemma sorted_rearrangement (out l : list Bookmark.t) :
  sorted_by_id out -> Permutation out l -> increasing_ids l -> out = l.
Proof.
  intros Hs Hp Hinc. destruct (increasing_ids_sorted l Hinc) as (Hl & Hnd).
  apply sorted_by_id_unique; try assumption.
  apply (Permutation_NoDup (l := map Bookmark.id l)); [| exact Hnd].
  apply Permutation_map, Permutation_sym, Hp.
Qed.

(** X6: The sort by id keeps the original order (url-checker.py, line 178):
    when the ids of the batch increase along the input list, as the
    extractor numbers them, the probe phase returns the probed bookmarks in
    input order, whatever the order in which the tasks complete. *)
Theorem probe_phase_keeps_input_order (w : World) (as_completed : CompletionOrder)
    (bookmarks : list Bookmark.t) (config : Config.t) :
  fair as_completed ->
  increasing_ids bookmarks ->
  fst (url_checker.check_urls_async w as_completed bookmarks config) =
  map (fun b => fst (check_url w b)) bookmarks.
Proof.
  intros Hfair Hinc. apply sorted_rearrangement.
  - apply sort_by_id_sorted.
  - apply check_urls_async_results, Hfair.
  - apply increasing_ids_map; [| exact Hinc].
    intros b. apply check_url_keeps_identity.
Qed.

Lemma probe_phase_keeps_input_order_witness :
  fst (url_checker.check_urls_async
         (constant_world (Returned (plain_response 200 [])) (Raised TimeoutError) true)
         (@rev Bookmark.t)
         [fresh_bookmark 1 "http://a.b/x" "a.b"; fresh_bookmark 2 "http://c.d/" "c.d";
          fresh_bookmark 5 "http://a.b/y" "a.b"]
         (Config.mk None None None None)) =
  map (fun b => fst (check_url
                       (constant_world (Returned (plain_response 200 []))
                                       (Raised TimeoutError) true) b))
      [fresh_bookmark 1 "http://a.b/x" "a.b"; fresh_bookmark 2 "http://c.d/" "c.d";
       fresh_bookmark 5 "http://a.b/y" "a.b"].
Proof.
  apply probe_phase_keeps_input_order.
  - exact rev_fair.
  - repeat constructor; simpl; lia.
Defined.

Lemma partition_map_perm {A B : Type} (p : A -> bool) (f g : A -> B) (l : list A) :
  Permutation (map f (filter p l) ++ map g (filter (fun x => negb (p x)) l))%list
              (map (fun x => if p x then f x else g x) l).
Proof.
  induction l as [| x l IH]; simpl.
  - apply perm_nil.
  - destruct (p x); simpl.
    + apply perm_skip, IH.
    + apply Permutation_sym, Permutation_cons_app, Permutation_sym, IH.
Qed.

Lemma fetched_keeps_status (w : World) (config : Config.t) (b : Bookmark.t) :
  Bookmark.id (fetched w config b) = Bookmark.id b /\
  Bookmark.status (fetched w config b) = Bookmark.status b.
Proof.
  unfold fetched. destruct (is_accessible b).
  - destruct (download_page_content_keeps_status w config b). auto.
  - auto.
Qed.

Lemma download_content_async_fetched (w : World) (config : Config.t)
    (as_completed : CompletionOrder) (bookmarks : list Bookmark.t) :
  fair as_completed ->
  Permutation (fst (content_downloader.download_content_async w as_completed bookmarks config))
              (map (fetched w config) bookmarks).
Proof.
  intros Hfair.
  eapply perm_trans; [apply download_content_async_results, Hfair |].
  unfold content_downloader.non_downloaded.
  exact (partition_map_perm is_accessible
           (fun b => fst (content_downloader.download_page_content w b config))
           (fun b => Bookmark.set_content b (content_downloader.inaccessible_content w))
           bookmarks).
Qed.

(** X7: The fetch phase returns one record per bookmark of the batch, the
    fetched one when the bookmark is accessible and the one marked
    [inaccessible_url] otherwise, with id and status untouched; when the
    ids increase along the input list the records come in input order. *)
Theorem fetch_phase_results (w : World) (as_completed : CompletionOrder)
    (bookmarks : list Bookmark.t) (config : Config.t) :
  fair as_completed ->
  Permutation (fst (content_downloader.download_content_async w as_completed bookmarks config))
              (map (fetched w config) bookmarks) /\
  (forall b, Bookmark.id (fetched w config b) = Bookmark.id b /\
             Bookmark.status (fetched w config b) = Bookmark.status b) /\
  (increasing_ids bookmarks ->
   fst (content_downloader.download_content_async w as_completed bookmarks config) =
   map (fetched w config) bookmarks).
Proof.
  intros Hfair. split; [| split].
  - apply download_content_async_fetched, Hfair.
  - apply fetched_keeps_status.
  - intros Hinc. apply sorted_rearrangement.
    + apply sort_by_id_sorted.
    + apply download_content_async_fetched, Hfair.
    + apply increasing_ids_map; [| exact Hinc].
      intros b. apply fetched_keeps_status.
Qed.

Lemma fetch_phase_results_witness :
  Permutation
    (fst (content_downloader.download_content_async json_world (@rev Bookmark.t)
            [checked_bookmark 1 "http://a.b/x" "a.b" 200;
             checked_bookmark 2 "http://a.b/gone" "a.b" 404]
            output_config))
    (map (fetched json_world output_config)
         [checked_bookmark 1 "http://a.b/x" "a.b" 200;
          checked_bookmark 2 "http://a.b/gone" "a.b" 404]).
Proof.
  apply (fetch_phase_results json_world (@rev Bookmark.t)
           [checked_bookmark 1 "http://a.b/x" "a.b" 200;
            checked_bookmark 2 "http://a.b/gone" "a.b" 404]
           output_config).
  exact rev_fair.
Defined.

(** X8: With pairwise distinct ids, the result of the probe phase does not
    depend on the order in which the tasks complete. *)
Theorem probe_phase_order_independent (w : World) (order1 order2 : CompletionOrder)
    (bookmarks : list Bookmark.t) (config : Config.t) :
  fair order1 -> fair order2 ->
  NoDup (map Bookmark.id bookmarks) ->
  fst (url_checker.check_urls_async w order1 bookmarks config) =
  fst (url_checker.check_urls_async w order2 bookmarks config).
Proof.
  intros H1 H2 Hnd. apply check_urls_async_deterministic; assumption.
Qed.

Lemma id_fair : fair (fun l : list Bookmark.t => l).
Proof. intros l. apply Permutation_refl. Qed.

Lemma probe_phase_order_independent_witness :
  fst (url_checker.check_urls_async
         (constant_world (Returned (plain_response 200 [])) (Raised TimeoutError) true)
         (@rev Bookmark.t)
         [fresh_bookmark 7 "http://a.b/x" "a.b"; fresh_bookmark 3 "http://c.d/" "c.d"]
         (Config.mk None None None None)) =
  fst (url_checker.check_urls_async
         (constant_world (Returned (plain_response 200 [])) (Raised TimeoutError) true)
         (fun l => l)
         [fresh_bookmark 7 "http://a.b/x" "a.b"; fresh_bookmark 3 "http://c.d/" "c.d"]
         (Config.mk None None None None)).
Proof.
  apply probe_phase_order_independent.
  - exact rev_fair.
  - exact id_fair.
  - repeat constructor; simpl; intuition discriminate.
Defined.

(** ** The numbers logged by [check_urls] *)

Lemma filter_length_le {A : Type} (p q : A -> bool) (l : list A) :
  (forall x, In x l -> p x = true -> q x = true) ->
  (List.length (filter p l) <= List.length (filter q l))%nat.
Proof.
  induction l as [| x l IH]; intros H; simpl; [lia |].
  assert (IH' : (List.length (filter p l) <= List.length (filter q l))%nat)
    by (apply IH; intros y Hy; apply H; right; exact Hy).
  destruct (p x) eqn:Ep.
  - rewrite (H x (or_introl eq_refl) Ep). simpl. lia.
  - destruct (q x); simpl; lia.
Qed.

Lemma filter_length_split {A : Type} (p : A -> bool) (l : list A) :
  (List.length (filter p l) + List.length (filter (fun x => negb (p x)) l))%nat
  = List.length l.
Proof.
  induction l as [| x l IH]; simpl; [reflexivity |].
  destruct (p x); simpl; lia.
Qed.

(** X9: In the line that [check_urls] logs, the redirected bookmarks are among
    the accessible ones, and the number reported as inaccessible, computed
    as [len(bookmarks) - accessible], is the number of returned bookmarks
    whose [accessible] flag is false. *)
Theorem check_urls_counts (w : World) (as_completed : CompletionOrder)
    (bookmarks : list Bookmark.t) (config : Config.t)
    (updated : list Bookmark.t) (accessible redirected inaccessible : Z) :
  fair as_completed ->
  check_urls w as_completed bookmarks config =
    (updated, (accessible, redirected, inaccessible)) ->
  0 <= redirected <= accessible /\
  accessible <= Z.of_nat (List.length bookmarks) /\
  inaccessible =
    count_if (fun b => negb (get_flag (Status.accessible (Bookmark.status b)))) updated.
Proof.
  intros Hfair E. unfold check_urls in E. inversion E; subst; clear E.
  set (updated := fst (url_checker.check_urls_async w as_completed bookmarks config)).
  assert (Hlen : List.length updated = List.length bookmarks).
  { unfold updated.
    rewrite (Permutation_length (check_urls_async_results w config as_completed bookmarks Hfair)).
    apply length_map. }
  assert (Hcons : forall b, In b updated -> status_consistent (Bookmark.status b)).
  { intros b Hb.
    apply (Permutation_in _ (check_urls_async_results w config as_completed bookmarks Hfair)) in Hb.
    apply in_map_iff in Hb. destruct Hb as (b0 & <- & _). apply check_url_consistent. }
  pose proof (filter_length_split
                (fun b => get_flag (Status.accessible (Bookmark.status b))) updated) as Hsplit.
  assert (Hle : (List.length (filter (fun b => get_flag (Status.redirect (Bookmark.status b))) updated)
                 <= List.length (filter (fun b => get_flag (Status.accessible (Bookmark.status b))) updated))%nat).
  { apply filter_length_le. intros b Hb Hr.
    destruct (Hcons b Hb) as (c & _ & Ha & Hred & _).
    rewrite Hred in Hr. rewrite Ha.
    assert (Hr' : in_range 300 400 c = true).
    { unfold in_range.
      destruct ((300 <=? c) && (c <? 400))%bool; [reflexivity | discriminate Hr]. }
    apply in_range_spec in Hr'.
    change ((200 <=? c) && (c <? 400))%bool with (in_range 200 400 c).
    rewrite (proj2 (in_range_spec 200 400 c)) by lia. reflexivity. }
  unfold count_if. cbv beta in Hsplit. clear Hcons.
  subst updated. unfold url_checker.check_urls_async in *. simpl fst in *.
  repeat split; lia.
Qed.

Lemma check_urls_counts_witness :
  0 <= 1 <= 2 /\ 2 <= Z.of_nat (List.length mixed_batch) /\
  1 = count_if (fun b => negb (get_flag (Status.accessible (Bookmark.status b))))
        (fst (check_urls mixed_world (@rev Bookmark.t) mixed_batch
                         (Config.mk None None None None))).
Proof.
  apply (check_urls_counts mixed_world (@rev Bookmark.t) mixed_batch
           (Config.mk None None None None)
           (fst (check_urls mixed_world (@rev Bookmark.t) mixed_batch
                            (Config.mk None None None None)))
           2 1 1).
  - exact rev_fair.
  - reflexivity.
Defined.

(** ** Start delays: bounds and full parallelism across domains *)

Lemma enumerate_nth {A : Type} (l : list A) (k : nat) (x : A) :
  In (k, x) (enumerate l) <-> nth_error l k = Some x.
Proof.
  revert k. induction l as [| a l IH]; intros k.
  - destruct k; simpl; split; try contradiction; discriminate.
  - rewrite enumerate_cons. simpl. split.
    + intros [E | Hin].
      * inversion E; subst. reflexivity.
      * apply in_map_iff in Hin. destruct Hin as ([k' x'] & E & Hin).
        simpl in E. inversion E; subst. simpl. apply IH, Hin.
    + destruct k as [| k]; simpl.
      * intros E; inversion E; subst. left. reflexivity.
      * intros E. right. apply in_map_iff. exists (k, x).
        split; [reflexivity | apply IH, E].
Qed.

Lemma ranked_tasks_in (delay_of : nat -> Q) (l : list Bookmark.t) (b : Bookmark.t) (d : Q) :
  In (b, d) (ranked_tasks delay_of l) <->
  exists k, nth_error l k = Some b /\ d = delay_of (rank_within_domain l k b).
Proof.
  unfold ranked_tasks. rewrite in_map_iff. split.
  - intros ([k x] & E & Hin). inversion E; subst.
    exists k. split; [apply enumerate_nth, Hin | reflexivity].
  - intros (k & Hk & ->). exists (k, b).
    split; [reflexivity | apply enumerate_nth, Hk].
Qed.

Lemma rank_within_domain_le (l : list Bookmark.t) (k : nat) (b : Bookmark.t) :
  nth_error l k = Some b -> (rank_within_domain l k b <= List.length l - 1)%nat.
Proof.
  intros Hk. unfold rank_within_domain.
  assert (Hlt : (k < List.length l)%nat) by (apply nth_error_Some; congruence).
  eapply Nat.le_trans; [apply filter_length_le with (q := fun _ => true); auto |].
  assert (E : forall l' : list Bookmark.t, filter (fun _ => true) l' = l')
    by (induction l' as [| y l' IH]; simpl; [| rewrite IH]; reflexivity).
  rewrite E, length_firstn. lia.
Qed.

Lemma rank_zero_distinct_domains (l : list Bookmark.t) (k : nat) (b : Bookmark.t) :
  NoDup (map Bookmark.domain l) ->
  nth_error l k = Some b ->
  rank_within_domain l k b = O.
Proof.
  unfold rank_within_domain. revert k.
  induction l as [| x l IH]; intros k Hnd Hk.
  - destruct k; discriminate.
  - simpl in Hnd. inversion Hnd as [| ? ? Hnin Hnd']; subst.
    destruct k as [| k]; [reflexivity |]. simpl in Hk. simpl.
    destruct (String.eqb (Bookmark.domain x) (Bookmark.domain b)) eqn:E.
    + apply String.eqb_eq in E. exfalso. apply Hnin. rewrite E.
      apply in_map. eapply nth_error_In. exact Hk.
    + apply IH; assumption.
Qed.

Lemma nat_to_Q_le (m n : nat) : (m <= n)%nat -> (nat_to_Q m <= nat_to_Q n)%Q.
Proof.
  intros H. unfold nat_to_Q. rewrite <- Zle_Qle. lia.
Qed.

(** X10: With a non-negative base delay [d], no probe task of a batch of [n]
    bookmarks waits less than 0 or more than [(n - 1) * d / 2], and no
    fetch task more than [(n - 1) * d]. *)
Theorem start_delays_bounded (config : Config.t) (bookmarks : list Bookmark.t)
    (b : Bookmark.t) (delay : Q) :
  (0 <= url_checker.delay config)%Q ->
  (0 <= content_downloader.delay config)%Q ->
  (In (b, delay) (url_checker.tasks config bookmarks) ->
   (0 <= delay)%Q /\
   (delay <= nat_to_Q (List.length bookmarks - 1) * url_checker.delay config / 2)%Q) /\
  (In (b, delay) (content_downloader.tasks config bookmarks) ->
   (0 <= delay)%Q /\
   (delay <= nat_to_Q (List.length bookmarks - 1) * content_downloader.delay config)%Q).
Proof.
  intros Hp Hf. split; intros Hin.
  - apply (Permutation_in _ (probe_tasks_ranked config bookmarks)) in Hin.
    apply ranked_tasks_in in Hin. destruct Hin as (k & Hk & ->).
    pose proof (rank_within_domain_le bookmarks k b Hk) as Hle.
    assert (H2 : (0 <= / 2)%Q) by (apply Qinv_le_0_compat; discriminate).
    unfold Qdiv. split.
    + apply Qmult_le_0_compat; [apply Qmult_le_0_compat |]; try assumption.
      apply (nat_to_Q_le 0). lia.
    + apply Qmult_le_compat_r; [| exact H2].
      apply Qmult_le_compat_r; [| exact Hp].
      apply nat_to_Q_le, Hle.
  - apply (Permutation_in _ (fetch_tasks_ranked config bookmarks)) in Hin.
    apply ranked_tasks_in in Hin. destruct Hin as (k & Hk & ->).
    pose proof (rank_within_domain_le _ k b Hk) as Hle.
    assert (Hlen : (List.length (filter is_accessible bookmarks) <= List.length bookmarks)%nat).
    { pose proof (filter_length_split is_accessible bookmarks). lia. }
    split.
    + apply Qmult_le_0_compat; try assumption.
      apply (nat_to_Q_le 0). lia.
    + apply Qmult_le_compat_r; [| exact Hf].
      apply nat_to_Q_le. lia.
Qed.

Lemma start_delays_bounded_witness :
  (0 <= nat_to_Q 1 * 1 / 2)%Q /\
  (nat_to_Q 1 * 1 / 2 <= nat_to_Q (3 - 1) * 1 / 2)%Q.
Proof.
  apply (proj1 (start_delays_bounded
                  (Config.mk None (Some 1%Q) None None)
                  [fresh_bookmark 1 "http://x.com/a" "x.com";
                   fresh_bookmark 2 "http://x.com/b" "x.com";
                   fresh_bookmark 3 "http://y.com/" "y.com"]
                  (fresh_bookmark 2 "http://x.com/b" "x.com")
                  (nat_to_Q 1 * 1 / 2)%Q
                  ltac:(discriminate) ltac:(discriminate))).
  simpl. right. left. reflexivity.
Defined.

(** X11: When no two bookmarks of the batch share a domain, no task of either
    phase sleeps before it starts, whatever the base delay. *)
Theorem distinct_domains_start_at_once (pw fw : World) (config : Config.t)
    (bookmarks : list Bookmark.t) (b : Bookmark.t) (delay : Q) :
  NoDup (map Bookmark.domain bookmarks) ->
  (In (b, delay) (url_checker.tasks config bookmarks) ->
   fst (check_url_with_delay pw b delay) = None) /\
  (In (b, delay) (content_downloader.tasks config bookmarks) ->
   fst (download_content_with_delay fw b config delay) = None).
Proof.
  intros Hnd. split; intros Hin.
  - apply (Permutation_in _ (probe_tasks_ranked config bookmarks)) in Hin.
    apply ranked_tasks_in in Hin. destruct Hin as (k & Hk & ->).
    rewrite (rank_zero_distinct_domains bookmarks k b Hnd Hk).
    unfold check_url_with_delay. simpl fst.
    replace (Qle_bool (nat_to_Q 0 * url_checker.delay config / 2) 0) with true;
      [reflexivity |].
    symmetry. apply Qle_bool_iff.
    change (nat_to_Q 0) with 0%Q. unfold Qdiv.
    setoid_replace (0 * url_checker.delay config * / 2)%Q with 0%Q by ring.
    apply Qle_refl.
  - apply (Permutation_in _ (fetch_tasks_ranked config bookmarks)) in Hin.
    apply ranked_tasks_in in Hin. destruct Hin as (k & Hk & ->).
    assert (Hnd' : NoDup (map Bookmark.domain (filter is_accessible bookmarks))).
    { clear -Hnd. induction bookmarks as [| x l IH]; simpl; [constructor |].
      simpl in Hnd. inversion Hnd as [| ? ? Hnin Hnd']; subst.
      destruct (is_accessible x); simpl; [| apply IH, Hnd'].
      constructor; [| apply IH, Hnd'].
      intros Hin. apply Hnin. apply in_map_iff in Hin.
      destruct Hin as (y & Ey & Hy). apply filter_In in Hy.
      rewrite <- Ey. apply in_map, Hy. }
    rewrite (rank_zero_distinct_domains _ k b Hnd' Hk).
    unfold download_content_with_delay. simpl fst.
    replace (Qle_bool (nat_to_Q 0 * content_downloader.delay config) 0) with true;
      [reflexivity |].
    symmetry. apply Qle_bool_iff.
    change (nat_to_Q 0) with 0%Q.
    setoid_replace (0 * content_downloader.delay config)%Q with 0%Q by ring.
    apply Qle_refl.
Qed.

Lemma distinct_domains_start_at_once_witness :
  fst (check_url_with_delay
         (constant_world (Returned (plain_response 200 [])) (Raised TimeoutError) true)
         (fresh_bookmark 2 "http://y.com/" "y.com")
         (nat_to_Q 0 * 5 / 2)%Q) = None.
Proof.
  apply (proj1 (distinct_domains_start_at_once
                  (constant_world (Returned (plain_response 200 [])) (Raised TimeoutError) true)
                  json_world
                  (Config.mk None (Some 5%Q) None None)
                  [fresh_bookmark 1 "http://x.com/a" "x.com";
                   fresh_bookmark 2 "http://y.com/" "y.com"]
                  (fresh_bookmark 2 "http://y.com/" "y.com")
                  (nat_to_Q 0 * 5 / 2)%Q
                  ltac:(repeat constructor; simpl; intuition discriminate))).
  simpl. right. left. reflexivity.
Defined.

(** * Further properties of the fetch *)

Section Fetch.

Variable w : World.
Variable config : Config.t.

Lemma download_page_content_accessible (b : Bookmark.t) :
  is_accessible b = true ->
  content_downloader.download_page_content w b config =
  (Bookmark.set_content b
     match content_downloader.fetch_attempt w config (content_downloader.target_url b) with
     | inr content => content
     | inl e => content_downloader.failure w (content_downloader.target_url b)
                  (content_downloader.error_string e)
     end,
   [GET (content_downloader.target_url b)]).
Proof.
  unfold is_accessible, content_downloader.download_page_content. intros ->. simpl.
  destruct (content_downloader.fetch_attempt w config (content_downloader.target_url b));
    reflexivity.
Qed.

(** X12: The fetch of an accessible bookmark makes one GET, to [redirect_url]
    when [redirect] is true and [redirect_url] is a non-empty string and to
    [url] otherwise; whatever the outcome, [url_used] is the address
    requested and [download_date] is set, and [downloaded] is true exactly
    when no [error] is recorded, which is exactly when a [path] is. *)
Theorem accessible_fetch_outcome (b : Bookmark.t) :
  is_accessible b = true ->
  content_downloader.target_url b =
    match Status.redirect (Bookmark.status b), Status.redirect_url (Bookmark.status b) with
    | Some true, Some target => if String.eqb target "" then Bookmark.url b else target
    | _, _ => Bookmark.url b
    end /\
  snd (content_downloader.download_page_content w b config) =
    [GET (content_downloader.target_url b)] /\
  Content.url_used
    (Bookmark.content (fst (content_downloader.download_page_content w b config))) =
    Some (content_downloader.target_url b) /\
  Content.download_date
    (Bookmark.content (fst (content_downloader.download_page_content w b config))) =
    Some (now_isoformat w) /\
  (Content.downloaded
     (Bookmark.content (fst (content_downloader.download_page_content w b config))) = true <->
   Content.error
     (Bookmark.content (fst (content_downloader.download_page_content w b config))) = None) /\
  (Content.downloaded
     (Bookmark.content (fst (content_downloader.download_page_content w b config))) = true <->
   Content.path
     (Bookmark.content (fst (content_downloader.download_page_content w b config))) <> None).
Proof.
  intros Hacc. split.
  - unfold content_downloader.target_url, get_flag, Py.truthy.
    destruct (Status.redirect_url (Bookmark.status b)) as [t |];
      destruct (Status.redirect (Bookmark.status b)) as [[|] |]; simpl; try reflexivity.
    destruct (String.eqb t ""); reflexivity.
  - rewrite (download_page_content_accessible b Hacc). simpl.
    split; [reflexivity |].
    unfold content_downloader.fetch_attempt.
    destruct (session_get w (content_downloader.target_url b)) as [r | e].
    + destruct (negb (Response.status r =? 200)).
      * simpl. repeat split; try discriminate; intros H; try discriminate H;
          exfalso; apply H; reflexivity.
      * destruct (Config.output_dir config) as [out |].
        -- destruct (storage_failure w _).
           ++ simpl. repeat split; try discriminate; intros H; try discriminate H;
                exfalso; apply H; reflexivity.
           ++ simpl. repeat split; try discriminate; intros H; reflexivity.
        -- simpl. repeat split; try discriminate; intros H; try discriminate H;
             exfalso; apply H; reflexivity.
    + simpl. repeat split; try discriminate; intros H; try discriminate H;
        exfalso; apply H; reflexivity.
Qed.

(** X13: A response other than 200 and a raised exception leave [downloaded]
    false with the error [status_code: <n>], [client_error: <msg>],
    [timeout] or [unexpected_error: <msg>]; the exception of a failed
    write, raised after a 200 response, goes through the same clauses. *)
Theorem fetch_error_taxonomy (b : Bookmark.t) :
  is_accessible b = true ->
  (forall response,
      session_get w (content_downloader.target_url b) = Returned response ->
      Response.status response <> 200 ->
      Bookmark.content (fst (content_downloader.download_page_content w b config)) =
      Content.mk false None None None (Some (now_isoformat w))
        (Some ("status_code: " ++ Py.str_int (Response.status response)))
        (Some (content_downloader.target_url b))) /\
  (forall e,
      session_get w (content_downloader.target_url b) = Raised e ->
      Bookmark.content (fst (content_downloader.download_page_content w b config)) =
      Content.mk false None None None (Some (now_isoformat w))
        (Some match e with
              | ClientConnectorError msg | ClientResponseError _ msg | ClientError msg =>
                  "client_error: " ++ msg
              | TimeoutError => "timeout"
              | OtherException msg => "unexpected_error: " ++ msg
              end)
        (Some (content_downloader.target_url b))) /\
  (forall response,
      session_get w (content_downloader.target_url b) = Returned response ->
      Response.status response = 200 ->
      Config.output_dir config = None ->
      Content.error
        (Bookmark.content (fst (content_downloader.download_page_content w b config))) =
      Some "unexpected_error: 'output_dir'") /\
  Py.str_int 404 = "404" /\ Py.str_int 500 = "500".
Proof.
  intros Hacc. rewrite (download_page_content_accessible b Hacc). simpl.
  unfold content_downloader.fetch_attempt.
  split; [| split; [| split; [| split; reflexivity]]].
  - intros response -> Hne.
    replace (Response.status response =? 200) with false
      by (symmetry; apply Z.eqb_neq; exact Hne).
    reflexivity.
  - intros e ->. destruct e; reflexivity.
  - intros response -> H200 Hout. rewrite H200, Hout. reflexivity.
Qed.

Lemma take_chars (n : nat) (s : string) (c : ascii) :
  In c (Py.chars (Py.take n s)) -> In c (Py.chars s).
Proof.
  revert s. induction n as [| n IH]; intros [| d s]; simpl; try contradiction.
  intros [E | Hin]; [left; exact E | right; apply IH, Hin].
Qed.

Lemma replace_chars (a r : ascii) (s : string) :
  a <> r -> ~ In a (Py.chars (Py.replace a r s)).
Proof.
  intros Hne. induction s as [| d s IH]; simpl; [tauto |].
  intros [E | Hin]; [| exact (IH Hin)].
  destruct (Ascii.eqb d a) eqn:Ed.
  - congruence.
  - apply Ascii.eqb_neq in Ed. congruence.
Qed.

Lemma before_chars (stop : ascii -> bool) (s : string) (c : ascii) :
  In c (Py.chars (urllib.before stop s)) -> stop c = false.
Proof.
  induction s as [| d s IH]; simpl; [contradiction |].
  destruct (stop d) eqn:Ed; simpl; [contradiction |].
  intros [E | Hin]; [subst; exact Ed | exact (IH Hin)].
Qed.

Lemma file_stem_shape (url : string) :
  content_downloader.file_stem url <> "" /\
  (String.length (content_downloader.file_stem url) <= 100)%nat /\
  ~ In "/"%char (Py.chars (content_downloader.file_stem url)).
Proof.
  rewrite file_stem_spec.
  destruct (String.eqb (Py.strip "/" (urllib.path (urllib.urlparse url))) "") eqn:E.
  - repeat split; [discriminate | simpl; lia |].
    simpl. intros H. repeat (destruct H as [H | H]; [discriminate |]). exact H.
  - apply String.eqb_neq in E. repeat split.
    + destruct (Py.strip "/" (urllib.path (urllib.urlparse url))); [congruence |].
      discriminate.
    + apply length_take.
    + intros Hin. apply take_chars in Hin.
      revert Hin. apply replace_chars. discriminate.
Qed.

(** X14: The stem of the file name is never empty, never longer than 100
    characters and never contains ['/'], whatever the URL: with the hash,
    the date and the extension it makes a single path component. *)
Theorem file_stem_single_component (w' : World) (url content_type : string) :
  content_downloader.file_stem url <> "" /\
  (String.length (content_downloader.file_stem url) <= 100)%nat /\
  ~ In "/"%char (Py.chars (content_downloader.file_stem url)) /\
  exists rest,
    content_downloader.filename w' url content_type =
    content_downloader.file_stem url ++ "_" ++ rest.
Proof.
  destruct (file_stem_shape url) as (H1 & H2 & H3).
  repeat split; try assumption.
  unfold content_downloader.filename. eauto.
Qed.

Lemma netloc_chars (url : string) (c : ascii) :
  In c (Py.chars (urllib.netloc (urllib.urlparse url))) -> urllib.netloc_stop c = false.
Proof.
  unfold urllib.urlparse. cbv zeta.
  destruct (urllib.split_scheme _) as [sch rest].
  unfold urllib.split_netloc.
  destruct (Py.startswith rest "//"); simpl.
  - apply before_chars.
  - contradiction.
Qed.

Lemma startswith_char_in (s : string) (c : ascii) :
  Py.startswith s (String c "") = true -> In c (Py.chars s).
Proof.
  unfold Py.startswith. destruct s as [| d s]; simpl; [discriminate |].
  destruct (ascii_dec c d) as [-> | _]; [left; reflexivity | discriminate].
Qed.

Lemma os_path_join_prefix (a b : string) :
  Py.startswith b "/" = false ->
  exists x, content_downloader.os_path_join a b = a ++ x.
Proof.
  intros H. unfold content_downloader.os_path_join. rewrite H.
  destruct (String.eqb a "" || Py.endswith a "/")%bool; eauto.
Qed.

Lemma endswith_app (s p : string) : Py.endswith (s ++ p) p = true.
Proof.
  induction s as [| c s IH].
  - simpl. destruct p; simpl; [reflexivity |].
    rewrite Ascii.eqb_refl, String.eqb_refl. reflexivity.
  - change (String.eqb (String c s ++ p) p || Py.endswith (s ++ p) p = true)%bool.
    rewrite IH. apply orb_true_r.
Qed.

Lemma os_path_join_suffix (a b : string) :
  exists x, content_downloader.os_path_join a b = x ++ b.
Proof.
  unfold content_downloader.os_path_join.
  destruct (Py.startswith b "/"); [exists ""; reflexivity |].
  destruct (String.eqb a "" || Py.endswith a "/")%bool; [eauto |].
  exists (a ++ "/"). rewrite append_assoc. reflexivity.
Qed.

Lemma replace_keeps_absent (a r c : ascii) (s : string) :
  c <> r -> ~ In c (Py.chars s) -> ~ In c (Py.chars (Py.replace a r s)).
Proof.
  intros Hne. induction s as [| d s IH]; simpl; [tauto |].
  intros Hnin [E | Hin].
  - destruct (Ascii.eqb d a); [congruence |]. apply Hnin. left. exact E.
  - apply IH; [| exact Hin]. intros H. apply Hnin. right. exact H.
Qed.

Lemma not_startswith_absent (s : string) (c : ascii) :
  ~ In c (Py.chars s) -> Py.startswith s (String c "") = false.
Proof.
  intros Hnin. destruct (Py.startswith s (String c "")) eqn:E; [| reflexivity].
  exfalso. apply Hnin, startswith_char_in, E.
Qed.

Lemma startswith_app_prefix (s p x : string) :
  Py.startswith s p = true -> Py.startswith (s ++ x) p = true.
Proof.
  intros H. apply prefix_app in H. destruct H as (rest & ->).
  rewrite append_assoc. apply startswith_app.
Qed.

(** X15: A downloaded page is stored under [<output_dir>/data/content], in a
    directory named after the network location of the fetched URL in which
    neither ['/'] nor [':'] occurs. *)
Theorem stored_under_content_dir (b : Bookmark.t) :
  is_accessible b = true ->
  Content.downloaded
    (Bookmark.content (fst (content_downloader.download_page_content w b config))) = true ->
  exists output_dir domain stored,
    Config.output_dir config = Some output_dir /\
    domain = Py.replace ":" "_"
               (urllib.netloc (urllib.urlparse (content_downloader.target_url b))) /\
    ~ In "/"%char (Py.chars domain) /\ ~ In ":"%char (Py.chars domain) /\
    Content.path
      (Bookmark.content (fst (content_downloader.download_page_content w b config))) =
      Some stored /\
    Py.startswith stored
      (content_downloader.os_path_join
         (content_downloader.os_path_join output_dir "data/content") domain) = true /\
    Py.startswith stored (content_downloader.os_path_join output_dir "data/content") = true.
Proof.
  intros Hacc Hd.
  destruct (download_page_content_success w config b Hacc Hd)
    as (response & output_dir & _ & _ & Hout & Hpath).
  set (url := content_downloader.target_url b) in *.
  set (domain := Py.replace ":" "_" (urllib.netloc (urllib.urlparse url))) in *.
  set (name := content_downloader.filename w url
                 (content_downloader.content_type_of response)) in *.
  set (content_dir := content_downloader.os_path_join output_dir "data/content") in *.
  assert (Hslash : ~ In "/"%char (Py.chars domain)).
  { apply replace_keeps_absent; [discriminate |].
    intros Hin. apply netloc_chars in Hin. discriminate Hin. }
  assert (Hname : Py.startswith name "/" = false).
  { unfold name, content_downloader.filename.
    destruct (file_stem_shape url) as (Hne & _ & Hnin).
    destruct (content_downloader.file_stem url) as [| c stem]; [congruence |].
    match goal with |- ?lhs = false => destruct lhs eqn:E; [| reflexivity] end.
    exfalso. apply prefix_app in E. destruct E as (rest & E).
    simpl in E. inversion E; subst. apply Hnin. left. reflexivity. }
  destruct (os_path_join_prefix content_dir domain (not_startswith_absent _ _ Hslash))
    as (x & Hx).
  destruct (os_path_join_prefix (content_downloader.os_path_join content_dir domain)
              name Hname) as (y & Hy).
  exists output_dir, domain, (content_downloader.os_path_join
                                (content_downloader.os_path_join content_dir domain) name).
  repeat split; try assumption.
  - apply replace_chars. discriminate.
  - rewrite Hy. apply startswith_app.
  - rewrite Hy, Hx, append_assoc. apply startswith_app.
Qed.

(** X16: After a successful fetch [mime_type] is the declared content type,
    ["text/html"] when the response declares none, and the stored path
    ends with the extension chosen for that type, [.html] when none is
    declared. *)
Theorem stored_mime_and_extension (b : Bookmark.t) :
  is_accessible b = true ->
  Content.downloaded
    (Bookmark.content (fst (content_downloader.download_page_content w b config))) = true ->
  exists response content_type stored,
    session_get w (content_downloader.target_url b) = Returned response /\
    content_type =
      match Response.header response "Content-Type" with
      | Some declared => declared
      | None => "text/html"
      end /\
    Content.mime_type
      (Bookmark.content (fst (content_downloader.download_page_content w b config))) =
      Some content_type /\
    Content.size
      (Bookmark.content (fst (content_downloader.download_page_content w b config))) =
      Some (Z.of_nat (String.length (Response.body response))) /\
    Content.path
      (Bookmark.content (fst (content_downloader.download_page_content w b config))) =
      Some stored /\
    Py.endswith stored (content_downloader.file_extension content_type) = true /\
    (Response.header response "Content-Type" = None -> Py.endswith stored ".html" = true).
Proof.
  intros Hacc Hd.
  destruct (download_page_content_success w config b Hacc Hd)
    as (response & output_dir & Hget & H200 & Hout & Hpath).
  assert (Hc : Content.mime_type
                 (Bookmark.content (fst (content_downloader.download_page_content w b config))) =
               Some (content_downloader.content_type_of response) /\
               Content.size
                 (Bookmark.content (fst (content_downloader.download_page_content w b config))) =
               Some (Z.of_nat (String.length (Response.body response)))).
  { revert Hd. rewrite (download_page_content_accessible b Hacc). simpl.
    unfold content_downloader.fetch_attempt. rewrite Hget, H200, Hout. simpl.
    destruct (storage_failure w _); [discriminate |]. simpl. auto. }
  destruct Hc as (Hmime & Hsize).
  assert (Hend : forall dir,
             Py.endswith
               (content_downloader.os_path_join dir
                  (content_downloader.filename w (content_downloader.target_url b)
                     (content_downloader.content_type_of response)))
               (content_downloader.file_extension
                  (content_downloader.content_type_of response)) = true).
  { intros dir. destruct (os_path_join_suffix dir
                            (content_downloader.filename w (content_downloader.target_url b)
                               (content_downloader.content_type_of response))) as (x & ->).
    unfold content_downloader.filename.
    rewrite <- !append_assoc. apply endswith_app. }
  eexists response, _, _. repeat split; try eassumption.
  - apply Hend.
  - intros Hnone.
    specialize (Hend (content_downloader.os_path_join
                        (content_downloader.os_path_join output_dir "data/content")
                        (Py.replace ":" "_"
                           (urllib.netloc
                              (urllib.urlparse (content_downloader.target_url b)))))).
    unfold content_downloader.content_type_of in Hend at 2.
    rewrite Hnone in Hend. exact Hend.
Qed.

End Fetch.

Lemma accessible_fetch_outcome_witness :
  snd (content_downloader.download_page_content json_world
         (Bookmark.mk 1 "http://a.b/old" "a.b"
            (Status.mk (Some 301) (Some true) (Some true) (Some "http://a.b/new")
                       (Some 0%Q) None (Some "2024-05-01T12:00:00"))
            Content.initial)
         output_config) = [GET "http://a.b/new"].
Proof.
  apply (accessible_fetch_outcome json_world output_config
           (Bookmark.mk 1 "http://a.b/old" "a.b"
              (Status.mk (Some 301) (Some true) (Some true) (Some "http://a.b/new")
                         (Some 0%Q) None (Some "2024-05-01T12:00:00"))
              Content.initial)).
  reflexivity.
Defined.

Lemma fetch_error_taxonomy_witness :
  Bookmark.content
    (fst (content_downloader.download_page_content
            (constant_world (Raised TimeoutError) (Returned (plain_response 404 [])) true)
            (checked_bookmark 1 "http://a.b/x" "a.b" 200) output_config)) =
  Content.mk false None None None (Some "2024-05-01T12:00:00")
    (Some "status_code: 404") (Some "http://a.b/x").
Proof.
  apply (proj1 (fetch_error_taxonomy
                  (constant_world (Raised TimeoutError) (Returned (plain_response 404 [])) true)
                  output_config (checked_bookmark 1 "http://a.b/x" "a.b" 200) eq_refl)
               (plain_response 404 []) eq_refl).
  discriminate.
Defined.

Lemma stored_under_content_dir_witness :
  exists output_dir domain stored,
    Config.output_dir output_config = Some output_dir /\
    domain = Py.replace ":" "_"
               (urllib.netloc
                  (urllib.urlparse
                     (content_downloader.target_url
                        (checked_bookmark 1 "https://a.b:8443/x/y" "a.b:8443" 200)))) /\
    ~ In "/"%char (Py.chars domain) /\ ~ In ":"%char (Py.chars domain) /\
    Content.path
      (Bookmark.content
         (fst (content_downloader.download_page_content json_world
                 (checked_bookmark 1 "https://a.b:8443/x/y" "a.b:8443" 200) output_config))) =
      Some stored /\
    Py.startswith stored
      (content_downloader.os_path_join
         (content_downloader.os_path_join output_dir "data/content") domain) = true /\
    Py.startswith stored (content_downloader.os_path_join output_dir "data/content") = true.
Proof.
  apply (stored_under_content_dir json_world output_config
           (checked_bookmark 1 "https://a.b:8443/x/y" "a.b:8443" 200));
    reflexivity.
Defined.

Example stored_with_port :
  Content.path
    (Bookmark.content
       (fst (content_downloader.download_page_content json_world
               (checked_bookmark 1 "https://a.b:8443/x/y" "a.b:8443" 200) output_config))) =
  Some "output/data/content/a.b_8443/x_y_0123456789_20240501.json".
Proof. reflexivity. Qed.

Lemma stored_mime_and_extension_witness :
  exists response content_type stored,
    session_get (constant_world (Raised TimeoutError) (Returned (plain_response 200 [])) true)
      (content_downloader.target_url (checked_bookmark 1 "https://a.b/" "a.b" 200)) =
      Returned response /\
    content_type =
      match Response.header response "Content-Type" with
      | Some declared => declared
      | None => "text/html"
      end /\
    Content.mime_type
      (Bookmark.content
         (fst (content_downloader.download_page_content
                 (constant_world (Raised TimeoutError) (Returned (plain_response 200 [])) true)
                 (checked_bookmark 1 "https://a.b/" "a.b" 200) output_config))) =
      Some content_type /\
    Content.size
      (Bookmark.content
         (fst (content_downloader.download_page_content
                 (constant_world (Raised TimeoutError) (Returned (plain_response 200 [])) true)
                 (checked_bookmark 1 "https://a.b/" "a.b" 200) output_config))) =
      Some (Z.of_nat (String.length (Response.body response))) /\
    Content.path
      (Bookmark.content
         (fst (content_downloader.download_page_content
                 (constant_world (Raised TimeoutError) (Returned (plain_response 200 [])) true)
                 (checked_bookmark 1 "https://a.b/" "a.b" 200) output_config))) =
      Some stored /\
    Py.endswith stored (content_downloader.file_extension content_type) = true /\
    (Response.header response "Content-Type" = None -> Py.endswith stored ".html" = true).
Proof.
  apply (stored_mime_and_extension
           (constant_world (Raised TimeoutError) (Returned (plain_response 200 [])) true)
           output_config (checked_bookmark 1 "https://a.b/" "a.b" 200));
    reflexivity.
Defined.

(** * The callers: [download_content] and the two steps of [main] *)

Lemma filter_length_perm {A : Type} (p : A -> bool) (l1 l2 : list A) :
  Permutation l1 l2 -> List.length (filter p l1) = List.length (filter p l2).
Proof.
  induction 1 as [| x l1 l2 _ IH | x y l | l1 l2 l3 _ IH1 _ IH2]; simpl.
  - reflexivity.
  - destruct (p x); simpl; lia.
  - destruct (p x), (p y); reflexivity.
  - lia.
Qed.

Lemma filter_length_map {A B : Type} (p : B -> bool) (f : A -> B) (l : list A) :
  List.length (filter p (map f l)) = List.length (filter (fun x => p (f x)) l).
Proof.
  induction l as [| x l IH]; simpl; [reflexivity |].
  destruct (p (f x)); simpl; lia.
Qed.

Lemma fetched_accessible (w : World) (config : Config.t) (b : Bookmark.t) :
  is_accessible (fetched w config b) = is_accessible b /\
  (Content.downloaded (Bookmark.content (fetched w config b)) = true ->
   is_accessible b = true).
Proof.
  split.
  - unfold is_accessible at 1 2.
    rewrite (proj2 (fetched_keeps_status w config b)). reflexivity.
  - unfold fetched. destruct (is_accessible b); [reflexivity | discriminate].
Qed.

Lemma requests_length (w : World) (config : Config.t) (ts : list (Bookmark.t * Q)) :
  Forall (fun b => is_accessible b = true) (map fst ts) ->
  List.length
    (flat_map (fun r : Bookmark.t * (Bookmark.t * list Request) =>
                 map (pair (fst r)) (snd (snd r)))
              (map (fun '(bookmark, _) =>
                      (bookmark, content_downloader.download_page_content w bookmark config))
                   ts))
  = List.length ts.
Proof.
  induction ts as [| [b d] ts IH]; simpl; intros H; [reflexivity |].
  inversion H as [| ? ? Hb Hts]; subst.
  rewrite length_app, length_map, IH by exact Hts.
  rewrite (proj1 (fetch_of_accessible w config b Hb)). reflexivity.
Qed.

Lemma with_output_dir_set (config : Config.t) :
  exists output_dir,
    Config.output_dir (with_output_dir config) = Some output_dir /\
    output_dir = match Config.output_dir config with Some d => d | None => "output" end.
Proof.
  unfold with_output_dir.
  destruct (Config.output_dir config) as [d |] eqn:E; simpl; eauto.
Qed.

(** X17: [download_content] creates the content directory, under
    [output_dir] or under ["output"] when the configuration names none,
    before anything else: when that raises, the exception comes out of
    [download_content] and no bookmark is fetched.  Otherwise it returns
    one record per bookmark, makes exactly one request per accessible
    bookmark, and counts as downloaded only accessible bookmarks. *)
Theorem download_content_counts (w : World) (as_completed : CompletionOrder)
    (bookmarks : list Bookmark.t) (config : Config.t) :
  fair as_completed ->
  match storage_failure w
          (content_downloader.os_path_join
             match Config.output_dir config with Some d => d | None => "output" end
             "data/content") with
  | Some e => download_content w as_completed bookmarks config = inl e
  | None =>
      exists updated requests downloaded,
        download_content w as_completed bookmarks config =
          inr (updated, requests, downloaded) /\
        List.length updated = List.length bookmarks /\
        List.length requests = List.length (filter is_accessible bookmarks) /\
        downloaded =
          count_if (fun b => Content.downloaded (Bookmark.content b)) updated /\
        0 <= downloaded <= count_if is_accessible bookmarks /\
        (forall b, In b updated ->
                   Content.downloaded (Bookmark.content b) = true ->
                   is_accessible b = true)
  end.
Proof.
  intros Hfair. unfold download_content.
  destruct (with_output_dir_set config) as (output_dir & -> & ->).
  destruct (storage_failure w _) as [e |] eqn:Es; [reflexivity |].
  set (config' := with_output_dir config).
  pose proof (download_content_async_fetched w config' as_completed bookmarks Hfair) as Hp.
  destruct (content_downloader.download_content_async w as_completed bookmarks config')
    as [updated requests] eqn:E.
  simpl fst in Hp.
  assert (Hreq : requests =
                 snd (content_downloader.download_content_async w as_completed bookmarks config'))
    by (rewrite E; reflexivity).
  assert (Hd : forall b, In b updated ->
                 Content.downloaded (Bookmark.content b) = true -> is_accessible b = true).
  { intros b Hb Hdl. apply (Permutation_in _ Hp) in Hb.
    apply in_map_iff in Hb. destruct Hb as (b0 & <- & _).
    rewrite (proj1 (fetched_accessible w config' b0)).
    apply (proj2 (fetched_accessible w config' b0)), Hdl. }
  assert (Hacc : List.length (filter is_accessible updated) =
                 List.length (filter is_accessible bookmarks)).
  { rewrite (filter_length_perm is_accessible _ _ Hp), filter_length_map.
    f_equal. apply filter_ext. intros b. apply fetched_accessible. }
  exists updated, requests,
    (count_if (fun b => Content.downloaded (Bookmark.content b)) updated).
  split; [reflexivity |].
  split; [| split; [| split; [reflexivity | split]]].
  - rewrite (Permutation_length Hp). apply length_map.
  - rewrite Hreq. unfold content_downloader.download_content_async. simpl snd.
    rewrite requests_length.
    + rewrite <- (length_map fst).
      apply Permutation_length, fetch_tasks_bookmarks.
    + eapply Permutation_Forall;
        [apply Permutation_sym, fetch_tasks_bookmarks |].
      apply Forall_forall. intros b Hb. apply filter_In in Hb. apply Hb.
  - unfold count_if. rewrite <- Hacc.
    pose proof (filter_length_le
                  (fun b => Content.downloaded (Bookmark.content b)) is_accessible
                  updated Hd).
    lia.
  - exact Hd.
Qed.

Lemma download_content_counts_witness :
  download_content readonly_world (@rev Bookmark.t)
    [checked_bookmark 1 "http://a.b/x" "a.b" 200;
     checked_bookmark 2 "http://a.b/gone" "a.b" 404]
    (Config.mk None None None None)
  = inl (OtherException "[Errno 13] Permission denied: 'output/data/content'").
Proof.
  apply (download_content_counts readonly_world (@rev Bookmark.t)
           [checked_bookmark 1 "http://a.b/x" "a.b" 200;
            checked_bookmark 2 "http://a.b/gone" "a.b" 404]
           (Config.mk None None None None)).
  exact rev_fair.
Defined.

Example download_content_default_dir :
  match download_content json_world (@rev Bookmark.t)
          [checked_bookmark 1 "http://a.b/x" "a.b" 200;
           checked_bookmark 2 "http://a.b/gone" "a.b" 404]
          (Config.mk None None None None) with
  | inr (updated, _, downloaded) =>
      map (fun b => Content.path (Bookmark.content b)) updated =
        [Some "output/data/content/a.b/x_0123456789_20240501.json"; None] /\
      downloaded = 1
  | inl _ => False
  end.
Proof. split; reflexivity. Qed.

(** X18: From the probe to the fetch: in the two steps of [main], every request
    of the fetch step is one GET for a bookmark whose probe ended with a
    code in [200,400), addressed to the redirect target the probe stored
    or, without one, to the bookmark's URL; the records returned are those
    of the input, by ascending id. *)
Theorem fetch_follows_probe (pw fw : World) (probe_order fetch_order : CompletionOrder)
    (bookmarks : list Bookmark.t) (config : Config.t)
    (updated : list Bookmark.t) (requests : list (Bookmark.t * Request)) (downloaded : Z) :
  fair probe_order -> fair fetch_order ->
  check_and_download pw fw probe_order fetch_order bookmarks config =
    inr (updated, requests, downloaded) ->
  (forall b' r, In (b', r) requests ->
     exists b c,
       In b bookmarks /\ b' = fst (check_url pw b) /\
       Status.code (probed pw b) = Some c /\ 200 <= c < 400 /\
       r = GET (content_downloader.target_url b')) /\
  Permutation (map Bookmark.id updated) (map Bookmark.id bookmarks) /\
  StronglySorted (fun x y => Bookmark.id x <= Bookmark.id y) updated.
Proof.
  intros Hp Hf E. unfold check_and_download, download_content in E.
  change (fst (check_urls pw probe_order bookmarks config))
    with (fst (url_checker.check_urls_async pw probe_order bookmarks config)) in E.
  set (checked := fst (url_checker.check_urls_async pw probe_order bookmarks config)) in *.
  set (config' := with_output_dir config) in *.
  destruct (storage_failure fw _); [discriminate |].
  destruct (content_downloader.download_content_async fw fetch_order checked config')
    as [updated' requests'] eqn:Ea.
  inversion E; subst; clear E.
  pose proof (check_urls_async_results pw config probe_order bookmarks Hp) as Hchecked.
  fold checked in Hchecked.
  split; [| split].
  - intros b' r Hin.
    assert (Hin' : In (b', r)
                     (snd (content_downloader.download_content_async fw fetch_order checked config')))
      by (rewrite Ea; exact Hin).
    apply download_content_async_log in Hin'.
    destruct Hin' as ((Hb' & Hacc) & Hr).
    apply (Permutation_in _ Hchecked) in Hb'.
    apply in_map_iff in Hb'. destruct Hb' as (b & <- & Hb).
    rewrite (proj1 (fetch_of_accessible fw config' _ Hacc)) in Hr.
    destruct Hr as [<- | []].
    destruct (check_url_consistent pw b) as (c & Hc & Ha & _).
    exists b, c. repeat split; try assumption; try reflexivity.
    + unfold is_accessible in Hacc.
      change (Bookmark.status (fst (check_url pw b))) with (probed pw b) in Hacc.
      rewrite Ha in Hacc.
      destruct (200 <=? c) eqn:E1; [apply Z.leb_le in E1; exact E1 | discriminate].
    + unfold is_accessible in Hacc.
      change (Bookmark.status (fst (check_url pw b))) with (probed pw b) in Hacc.
      rewrite Ha in Hacc.
      destruct (200 <=? c); [| discriminate].
      destruct (c <? 400) eqn:E2; [apply Z.ltb_lt in E2; exact E2 | discriminate].
  - assert (Hu : Permutation updated (map (fetched fw config') checked)).
    { replace updated with
        (fst (content_downloader.download_content_async fw fetch_order checked config'))
        by (rewrite Ea; reflexivity).
      apply download_content_async_fetched, Hf. }
    eapply perm_trans; [apply Permutation_map, Hu |].
    rewrite map_map.
    erewrite map_ext; [| intros a; apply fetched_keeps_status].
    eapply perm_trans; [apply Permutation_map, Hchecked |].
    rewrite map_map.
    erewrite map_ext; [apply Permutation_refl |].
    intros a. apply check_url_keeps_identity.
  - replace updated with
      (fst (content_downloader.download_content_async fw fetch_order checked config'))
      by (rewrite Ea; reflexivity).
    apply sort_by_id_sorted.
Qed.

Lemma fetch_follows_probe_witness :
  StronglySorted (fun x y => Bookmark.id x <= Bookmark.id y)
    (fst (content_downloader.download_content_async json_world (fun l => l)
            (fst (url_checker.check_urls_async mixed_world (@rev Bookmark.t) mixed_batch
                    (Config.mk None None None None)))
            (with_output_dir (Config.mk None None None None)))).
Proof.
  apply (fetch_follows_probe mixed_world json_world (@rev Bookmark.t) (fun l => l)
           mixed_batch (Config.mk None None None None)
           (fst (content_downloader.download_content_async json_world (fun l => l)
                   (fst (url_checker.check_urls_async mixed_world (@rev Bookmark.t) mixed_batch
                           (Config.mk None None None None)))
                   (with_output_dir (Config.mk None None None None))))
           (snd (content_downloader.download_content_async json_world (fun l => l)
                   (fst (url_checker.check_urls_async mixed_world (@rev Bookmark.t) mixed_batch
                           (Config.mk None None None None)))
                   (with_output_dir (Config.mk None None None None))))
           2).
  - exact rev_fair.
  - exact id_fair.
  - reflexivity.
Defined.

Example fetch_follows_probe_requests :
  map snd
    (snd (content_downloader.download_content_async json_world (fun l => l)
            (fst (url_checker.check_urls_async mixed_world (@rev Bookmark.t) mixed_batch
                    (Config.mk None None None None)))
            (with_output_dir (Config.mk None None None None))))
  = [GET "http://a.b/x"; GET "http://a.b/new"].
Proof. reflexivity. Qed.

(** * Grouping by domain *)

Lemma domains_append_keys (domains : list (string * list Bookmark.t)) (b : Bookmark.t)
    (k : string) :
  In k (map fst (domains_append domains b)) <->
  In k (map fst domains) \/ k = Bookmark.domain b.
Proof.
  induction domains as [| [d bs] rest IH]; simpl.
  - intuition.
  - destruct (String.eqb d (Bookmark.domain b)) eqn:E; simpl.
    + apply String.eqb_eq in E. subst d. intuition.
    + rewrite IH. intuition.
Qed.

Lemma domains_append_nodup (domains : list (string * list Bookmark.t)) (b : Bookmark.t) :
  NoDup (map fst domains) -> NoDup (map fst (domains_append domains b)).
Proof.
  induction domains as [| [d bs] rest IH]; simpl; intros H.
  - constructor; [tauto | constructor].
  - inversion H as [| ? ? Hnin Hnd]; subst.
    destruct (String.eqb d (Bookmark.domain b)) eqn:E; simpl.
    + constructor; assumption.
    + apply String.eqb_neq in E. constructor; [| apply IH, Hnd].
      rewrite domains_append_keys. intros [Hin | Heq]; [exact (Hnin Hin) | exact (E Heq)].
Qed.

Lemma domains_append_entries (domains : list (string * list Bookmark.t)) (b : Bookmark.t)
    (d : string) (bs : list Bookmark.t) :
  NoDup (map fst domains) ->
  In (d, bs) (domains_append domains b) ->
  (d <> Bookmark.domain b /\ In (d, bs) domains) \/
  (d = Bookmark.domain b /\
   ((exists bs0, In (d, bs0) domains /\ bs = (bs0 ++ [b])%list) \/
    (~ In d (map fst domains) /\ bs = [b]))).
Proof.
  induction domains as [| [k ks] rest IH]; simpl; intros Hnd Hin.
  - destruct Hin as [E | []]. inversion E; subst.
    right. split; [reflexivity |]. right. split; [tauto | reflexivity].
  - inversion Hnd as [| ? ? Hnin Hnd']; subst.
    destruct (String.eqb k (Bookmark.domain b)) eqn:E.
    + apply String.eqb_eq in E. subst k.
      destruct Hin as [E | Hin].
      * inversion E; subst. right. split; [reflexivity |].
        left. exists ks. split; [left; reflexivity | reflexivity].
      * left. split; [| right; exact Hin].
        intros ->. apply Hnin. apply (in_map fst) in Hin. exact Hin.
    + apply String.eqb_neq in E.
      destruct Hin as [E' | Hin].
      * inversion E'; subst. left. split; [exact E | left; reflexivity].
      * destruct (IH Hnd' Hin) as [(Hne & H) | (-> & [(bs0 & H & ->) | (Hn & ->)])].
        -- left. split; [exact Hne | right; exact H].
        -- right. split; [reflexivity |]. left. exists bs0. split; [right; exact H | reflexivity].
        -- right. split; [reflexivity |]. right. split; [| reflexivity].
           intros [Hk | Hk]; [exact (E Hk) | exact (Hn Hk)].
Qed.

Lemma filter_none {A : Type} (p : A -> bool) (l : list A) :
  (forall x, In x l -> p x = false) -> filter p l = [].
Proof.
  induction l as [| x l IH]; intros H; simpl; [reflexivity |].
  rewrite (H x (or_introl eq_refl)). apply IH. intros y Hy. apply H. right. exact Hy.
Qed.

Lemma groups_append (seen : list Bookmark.t) (domains : list (string * list Bookmark.t))
    (b : Bookmark.t) :
  groups seen domains -> groups (seen ++ [b]) (domains_append domains b).
Proof.
  intros (Hnd & Hent & Hcov). split; [| split].
  - apply domains_append_nodup, Hnd.
  - intros d bs Hin. rewrite filter_app. simpl.
    destruct (domains_append_entries domains b d bs Hnd Hin)
      as [(Hne & H) | (-> & [(bs0 & H & ->) | (Hn & ->)])].
    + destruct (Hent d bs H) as (Hnil & Hbs). split; [exact Hnil |].
      replace (String.eqb (Bookmark.domain b) d) with false
        by (symmetry; apply String.eqb_neq; congruence).
      rewrite app_nil_r. exact Hbs.
    + destruct (Hent _ bs0 H) as (_ & Hbs). rewrite String.eqb_refl.
      split; [destruct bs0; discriminate | rewrite <- Hbs; reflexivity].
    + rewrite String.eqb_refl. split; [discriminate |].
      rewrite filter_none; [reflexivity |].
      intros x Hx. apply String.eqb_neq. intros E. apply Hn.
      rewrite <- E. apply Hcov, Hx.
  - intros x Hx. apply domains_append_keys.
    apply in_app_or in Hx. destruct Hx as [Hx | [<- | []]].
    + left. apply Hcov, Hx.
    + right. reflexivity.
Qed.

Lemma groups_fold (l seen : list Bookmark.t) (domains : list (string * list Bookmark.t)) :
  groups seen domains -> groups (seen ++ l) (fold_left domains_append l domains).
Proof.
  revert seen domains. induction l as [| b l IH]; intros seen domains H; simpl.
  - rewrite app_nil_r. exact H.
  - replace (seen ++ b :: l)%list with ((seen ++ [b]) ++ l)%list
      by (rewrite <- app_assoc; reflexivity).
    apply IH, groups_append, H.
Qed.

(** X19: The grouping loop of both phases puts every bookmark it keeps under
    the key of its domain and nowhere else: the keys are distinct, and the
    list of a key is, in input order, the bookmarks of that domain (all of
    them in the probe phase, the accessible ones in the fetch phase), never
    empty. *)
Theorem group_domains_partition (bookmarks : list Bookmark.t) :
  groups bookmarks (url_checker.group_domains bookmarks) /\
  groups (filter is_accessible bookmarks) (content_downloader.group_domains bookmarks).
Proof.
  assert (H0 : groups [] []).
  { split; [constructor | split; [intros ? ? [] | intros ? []]]. }
  split.
  - exact (groups_fold bookmarks [] [] H0).
  - unfold content_downloader.group_domains. rewrite fetch_group_domains.
    exact (groups_fold (filter is_accessible bookmarks) [] [] H0).
Qed.

Example group_domains_example :
  map (fun '(d, bs) => (d, map Bookmark.id bs))
      (url_checker.group_domains
         [fresh_bookmark 1 "http://a.b/x" "a.b"; fresh_bookmark 2 "http://c.d/" "c.d";
          fresh_bookmark 3 "http://a.b/y" "a.b"])
  = [("a.b", [1; 3]); ("c.d", [2])].
Proof. reflexivity. Qed.
